(** * ARM Generic Interrupt Controller driver (drivers/irqchip/irq-gic.c)

    A shallow embedding of the Xvisor GIC driver.  Every C function of the
    driver is a monadic function over an explicit [world]: the memory-mapped
    hardware, the driver's static data ([gic_cnt], [gic_data]), the host
    interrupt framework's per-line table and a chronological trace of the
    externally visible actions (register accesses, barriers, calls into the
    host framework). *)

From Stdlib Require Import ZArith Lia.
From stdpp Require Import base option list gmap strings.

Local Open Scope Z_scope.

(** ** Machine integers *)

(** A [u32] is a [Z] in [0, 2^32); [u32 x] is the C conversion to [u32]. *)
Definition u32 (x : Z) : Z := x mod 2 ^ 32.

(** [UINT_MAX] of vmm_limits.h for a 32-bit [unsigned int]. *)
Definition UINT_MAX : Z := 2 ^ 32 - 1.

(** ** Register offsets (irq-gic.c, lines 34-54) *)

Definition GIC_CPU_CTRL : Z := 0x00.
Definition GIC_CPU_PRIMASK : Z := 0x04.
Definition GIC_CPU_BINPOINT : Z := 0x08.
Definition GIC_CPU_INTACK : Z := 0x0c.
Definition GIC_CPU_EOI : Z := 0x10.
Definition GIC_CPU_RUNNINGPRI : Z := 0x14.
Definition GIC_CPU_HIGHPRI : Z := 0x18.

Definition GIC_CPU2_DIR : Z := 0x00.

Definition GIC_DIST_CTRL : Z := 0x000.
Definition GIC_DIST_CTR : Z := 0x004.
Definition GIC_DIST_ENABLE_SET : Z := 0x100.
Definition GIC_DIST_ENABLE_CLEAR : Z := 0x180.
Definition GIC_DIST_PENDING_SET : Z := 0x200.
Definition GIC_DIST_PENDING_CLEAR : Z := 0x280.
Definition GIC_DIST_ACTIVE_BIT : Z := 0x300.
Definition GIC_DIST_PRI : Z := 0x400.
Definition GIC_DIST_TARGET : Z := 0x800.
Definition GIC_DIST_CONFIG : Z := 0xc00.
Definition GIC_DIST_SOFTINT : Z := 0xf00.

Definition GIC_MAX_NR : Z := 2.

(** ** Data model *)

(** [struct gic_chip_data]. *)
Record gic_chip_data := mk_gic {
  eoimode : bool;
  irq_offset : Z;
  gic_irqs : Z;
  dist_base : Z;
  cpu_base : Z;
  cpu2_base : Z;
}.

(** A zero-initialised entry of the static table. *)
Definition gic_zero : gic_chip_data := mk_gic false 0 0 0 0 0.

(** The one chip descriptor of the driver ([gic_chip]) and the flow handler
    it installs. *)
Inductive vmm_host_irq_chip := gic_chip.
Inductive vmm_host_irq_handler := vmm_handle_fast_eoi.
Inductive vmm_host_irq_function := gic_handle_cascade_irq_fn.
Inductive vmm_active_callback := gic_active_irq_fn.

(** [vmm_irq_return_t]. *)
Inductive vmm_irq_return_t := VMM_IRQ_NONE | VMM_IRQ_HANDLED.

(** What the host framework stores for one line.  The chip data is a pointer
    into [gic_data]; it is kept as the index of the entry it points to. *)
Record host_irq_entry := mk_hirq {
  hirq_chip : option vmm_host_irq_chip;
  hirq_chip_data : option nat;
  hirq_handler : option vmm_host_irq_handler;
  hirq_per_cpu : bool;
}.

Definition hirq_empty : host_irq_entry := mk_hirq None None None false.

(** The [struct vmm_host_irq] handed to a chip operation: the global line
    number and the chip-data pointer. *)
Record vmm_host_irq := mk_irq {
  num : Z;
  chip_data : nat;
}.

(** A device-tree node as the driver queries it: register windows by index
    and [u32] attributes by name. *)
Record vmm_devtree_node := mk_node {
  dn_regmap : Z -> option Z;
  dn_u32 : string -> option Z;
}.

(** Externally visible actions, in program order. *)
Inductive event :=
| EvRead (addr : Z)
| EvWrite (val addr : Z)
| EvWmb
| EvWarn
| EvIrqExec (hirq : Z)
| EvIrqRegister (hirq : Z) (name : string)
    (func : vmm_host_irq_function) (dev : nat)
| EvSetActiveCallback (cb : vmm_active_callback).

(** ** Hardware *)

(** Modelled from the spec: the hardware behind [vmm_readl] and
    [vmm_writel].  One distributor at [hw_dist], whose enable state is held
    per 32-line word and is reached through the write-one-to-set and
    write-one-to-clear windows [GIC_DIST_ENABLE_SET] and
    [GIC_DIST_ENABLE_CLEAR] (unmask sets the line's bit through the
    enable-set bank, mask clears it through the enable-clear bank, each by
    writing that single bit), and plain 32-bit storage at every other
    address. *)
Record gic_hw := mk_hw {
  hw_dist : Z;
  hw_enable : Z -> Z;
  hw_mem : Z -> Z;
}.

Inductive dist_reg :=
| RegEnableSet (word : Z)
| RegEnableClear (word : Z)
| RegPlain.

(** ** The world *)

Record world := mk_world {
  hw : gic_hw;
  gic_cnt : Z;
  gic_data : list gic_chip_data;
  host_irqs : gmap Z host_irq_entry;
  active_cb : option vmm_active_callback;
  trace : list event;
}.

Definition set_hw (h : gic_hw) (w : world) : world :=
  mk_world h (gic_cnt w) (gic_data w) (host_irqs w) (active_cb w) (trace w).
Definition set_gic_cnt (c : Z) (w : world) : world :=
  mk_world (hw w) c (gic_data w) (host_irqs w) (active_cb w) (trace w).
Definition set_gic_data (d : list gic_chip_data) (w : world) : world :=
  mk_world (hw w) (gic_cnt w) d (host_irqs w) (active_cb w) (trace w).
Definition set_host_irqs (m : gmap Z host_irq_entry) (w : world) : world :=
  mk_world (hw w) (gic_cnt w) (gic_data w) m (active_cb w) (trace w).
Definition set_active_cb (c : option vmm_active_callback) (w : world) : world :=
  mk_world (hw w) (gic_cnt w) (gic_data w) (host_irqs w) c (trace w).
Definition log (e : event) (w : world) : world :=
  mk_world (hw w) (gic_cnt w) (gic_data w) (host_irqs w) (active_cb w)
    (trace w ++ [e]).

(** ** The driver monad

    A computation takes a world and yields a final world together with
    [Some] result, or [None] when the kernel stopped in [BUG()] (or
    dereferenced a chip-data pointer outside the table). *)
Definition M (A : Type) : Type := world -> option A * world.

Definition ret {A} (a : A) : M A := fun w => (Some a, w).

Definition bind {A B} (m : M A) (k : A -> M B) : M B :=
  fun w => match m w with
           | (Some a, w') => k a w'
           | (None, w') => (None, w')
           end.

Definition BUG {A} : M A := fun w => (None, w).

Definition get : M world := fun w => (Some w, w).
Definition modify (f : world -> world) : M unit := fun w => (Some tt, f w).
Definition emit (e : event) : M unit := modify (log e).

Notation "'let!' x ':=' m 'in' k" := (bind m (fun x => k))
  (at level 10, x name, m at level 100, k at level 200).
Notation "m ;; k" := (bind m (fun _ => k))
  (at level 100, k at level 200, right associativity).

(** [for (i = lo; i < hi; i += step) body(i)] for a positive [step]: the
    body runs [ceil((hi - lo) / step)] times. *)
Fixpoint for_steps (n : nat) (i step : Z) (body : Z -> M unit) : M unit :=
  match n with
  | O => ret tt
  | S n' => body i ;; for_steps n' (i + step) step body
  end.

Definition for_loop (lo hi step : Z) (body : Z -> M unit) : M unit :=
  for_steps (Z.to_nat ((hi - lo + step - 1) / step)) lo step body.

Definition when (b : bool) (m : M unit) : M unit :=
  if b then m else ret tt.

(** ** The driver *)

Section Driver.

(** What the driver takes from headers and collaborators outside this file:
    the host framework's line capacity, the width of [virtual_addr_t], the
    error codes of vmm_error.h, the trigger types of vmm_host_irq.h, the
    CPU-mask and SMP primitives, the result of [vmm_host_irq_register] and
    the indeterminate value of an uninitialised local. *)
Variable CONFIG_HOST_IRQ_COUNT : Z.
Variable VA_BITS : Z.
Variables VMM_OK VMM_EINVALID VMM_ENODEV : Z.
Variables VMM_IRQ_TYPE_LEVEL_HIGH VMM_IRQ_TYPE_EDGE_RISING : Z.
Variable vmm_cpumask_first : Z -> Z.
Variable vmm_smp_processor_id : Z.
Variable vmm_smp_is_bootcpu : bool.
Variable vmm_host_irq_register_rc : Z -> Z.
Variable uninit : Z.

(** Addition on [virtual_addr_t]. *)
Definition va_add (a b : Z) : Z := (a + b) mod 2 ^ VA_BITS.
Infix "+@" := va_add (at level 50, left associativity).

(** *** Memory-mapped I/O *)

(** Modelled from the spec: which register of the distributor at [dist] an
    address selects (enable-set and enable-clear, 32 lines per word). *)
Definition decode (dist addr : Z) : dist_reg :=
  let off := (addr - dist) mod 2 ^ VA_BITS in
  if (GIC_DIST_ENABLE_SET <=? off) && (off <? GIC_DIST_ENABLE_CLEAR)
     && (off mod 4 =? 0)
  then RegEnableSet ((off - GIC_DIST_ENABLE_SET) / 4)
  else if (GIC_DIST_ENABLE_CLEAR <=? off) && (off <? GIC_DIST_PENDING_SET)
          && (off mod 4 =? 0)
  then RegEnableClear ((off - GIC_DIST_ENABLE_CLEAR) / 4)
  else RegPlain.

Definition upd (f : Z -> Z) (k v : Z) : Z -> Z :=
  fun j => if j =? k then v else f j.

(** Modelled from the spec: [vmm_readl]; both enable windows read back the
    enable bits. *)
Definition hw_read (h : gic_hw) (addr : Z) : Z :=
  match decode (hw_dist h) addr with
  | RegEnableSet k | RegEnableClear k => u32 (hw_enable h k)
  | RegPlain => u32 (hw_mem h addr)
  end.

(** Modelled from the spec: [vmm_writel]. *)
Definition hw_write (h : gic_hw) (val addr : Z) : gic_hw :=
  match decode (hw_dist h) addr with
  | RegEnableSet k =>
      mk_hw (hw_dist h) (upd (hw_enable h) k (Z.lor (hw_enable h k) val))
        (hw_mem h)
  | RegEnableClear k =>
      mk_hw (hw_dist h) (upd (hw_enable h) k (Z.ldiff (hw_enable h k) val))
        (hw_mem h)
  | RegPlain => mk_hw (hw_dist h) (hw_enable h) (upd (hw_mem h) addr val)
  end.

(** Whether hardware line [line] of the distributor is enabled. *)
Definition line_enabled (h : gic_hw) (line : Z) : bool :=
  Z.testbit (hw_enable h (line / 32)) (line mod 32).

(** [gic_write(val, addr)]. *)
Definition gic_write (val addr : Z) : M unit :=
  modify (fun w => log (EvWrite val addr) (set_hw (hw_write (hw w) val addr) w)).

(** [gic_read(addr)]. *)
Definition gic_read (addr : Z) : M Z :=
  fun w => (Some (hw_read (hw w) addr), log (EvRead addr) w).

(** *** Host framework

    The host interrupt framework (vmm_host_irq.h) is outside this file:
    line registration associates a global line number with the chip's
    operation set and the owning controller, and a line can be marked
    per-CPU. *)

Definition hirq_get (m : gmap Z host_irq_entry) (i : Z) : host_irq_entry :=
  default hirq_empty (m !! i).

(** Modelled from the spec: [vmm_host_irq_set_chip] stores the operation
    set of line [i]. *)
Definition vmm_host_irq_set_chip (i : Z) (c : vmm_host_irq_chip) : M unit :=
  modify (fun w =>
    let e := hirq_get (host_irqs w) i in
    set_host_irqs (<[i := mk_hirq (Some c) (hirq_chip_data e)
                           (hirq_handler e) (hirq_per_cpu e)]> (host_irqs w)) w).

(** Modelled from the spec: [vmm_host_irq_set_chip_data] stores the
    owning-controller back-reference of line [i]. *)
Definition vmm_host_irq_set_chip_data (i : Z) (d : nat) : M unit :=
  modify (fun w =>
    let e := hirq_get (host_irqs w) i in
    set_host_irqs (<[i := mk_hirq (hirq_chip e) (Some d)
                           (hirq_handler e) (hirq_per_cpu e)]> (host_irqs w)) w).

(** Modelled from the spec: [vmm_host_irq_set_handler] stores the flow
    handler of line [i]. *)
Definition vmm_host_irq_set_handler (i : Z) (h : vmm_host_irq_handler) : M unit :=
  modify (fun w =>
    let e := hirq_get (host_irqs w) i in
    set_host_irqs (<[i := mk_hirq (hirq_chip e) (hirq_chip_data e)
                           (Some h) (hirq_per_cpu e)]> (host_irqs w)) w).

(** Modelled from the spec: [vmm_host_irq_mark_per_cpu] marks line [i]
    per-CPU. *)
Definition vmm_host_irq_mark_per_cpu (i : Z) : M unit :=
  modify (fun w =>
    let e := hirq_get (host_irqs w) i in
    set_host_irqs (<[i := mk_hirq (hirq_chip e) (hirq_chip_data e)
                           (hirq_handler e) true]> (host_irqs w)) w).

(** Modelled from the spec: the generic dispatch-by-number entry point; the
    call is recorded. *)
Definition vmm_host_generic_irq_exec (hirq : Z) : M unit :=
  emit (EvIrqExec hirq).

(** Modelled from the spec: registration of a handler for a line; the call
    is recorded and its result is the framework's. *)
Definition vmm_host_irq_register (hirq : Z) (name : string)
    (func : vmm_host_irq_function) (dev : nat) : M Z :=
  emit (EvIrqRegister hirq name func dev) ;;
  ret (vmm_host_irq_register_rc hirq).

(** Modelled from the spec: active-interrupt-source registration. *)
Definition vmm_host_irq_set_active_callback (cb : vmm_active_callback) : M unit :=
  modify (fun w => log (EvSetActiveCallback cb) (set_active_cb (Some cb) w)).

(** Modelled from the spec: the memory-barrier primitive [arch_wmb()] of
    arch_barrier.h; the call is recorded. *)
Definition arch_wmb : M unit := emit EvWmb.

(** [WARN_ON(cond)]: a diagnostic when [cond] holds; yields [cond]. *)
Definition WARN_ON (c : bool) : M bool :=
  when c (emit EvWarn) ;; ret c.

(** Reading the fields of the entry of [gic_data] that a pointer refers
    to. *)
Definition gic_deref (p : nat) : M gic_chip_data :=
  fun w => (gic_data w !! p, w).

Definition vmm_host_irq_get_chip_data (irq : vmm_host_irq) : M gic_chip_data :=
  gic_deref (chip_data irq).

(** [gic_irq(gic, irq)]: the local number of a line, in [u32] arithmetic. *)
Definition gic_irq (gic : gic_chip_data) (irq : vmm_host_irq) : Z :=
  u32 (num irq - irq_offset gic).

(** *** Chip operations *)

Definition gic_active_irq (cpu_irq_nr : Z) : M Z :=
  let! gic0 := gic_deref 0 in
  let! r := gic_read (cpu_base gic0 +@ GIC_CPU_INTACK) in
  let ret0 := Z.land r 0x3FF in
  if ret0 <? 1021 then ret (u32 (ret0 + irq_offset gic0))
  else ret UINT_MAX.

Definition gic_eoi_irq (irq : vmm_host_irq) : M unit :=
  let! gic := vmm_host_irq_get_chip_data irq in
  let irq_no := gic_irq gic irq in
  gic_write irq_no (cpu_base gic +@ GIC_CPU_EOI) ;;
  when (eoimode gic) (gic_write irq_no (cpu2_base gic +@ GIC_CPU2_DIR)).

Definition gic_mask_irq (irq : vmm_host_irq) : M unit :=
  let! gic := vmm_host_irq_get_chip_data irq in
  gic_write (u32 (Z.shiftl 1 (num irq mod 32)))
    (dist_base gic +@ GIC_DIST_ENABLE_CLEAR +@ u32 (gic_irq gic irq / 32 * 4)).

Definition gic_unmask_irq (irq : vmm_host_irq) : M unit :=
  let! gic := vmm_host_irq_get_chip_data irq in
  gic_write (u32 (Z.shiftl 1 (num irq mod 32)))
    (dist_base gic +@ GIC_DIST_ENABLE_SET +@ u32 (gic_irq gic irq / 32 * 4)).

Definition gic_set_type (irq : vmm_host_irq) (type : Z) : M Z :=
  let! gic := vmm_host_irq_get_chip_data irq in
  let base := dist_base gic in
  let gicirq := gic_irq gic irq in
  let enablemask := u32 (Z.shiftl 1 (gicirq mod 32)) in
  let enableoff := u32 (gicirq / 32 * 4) in
  let confmask := u32 (Z.shiftl 0x2 (gicirq mod 16 * 2)) in
  let confoff := u32 (gicirq / 16 * 4) in
  if gicirq <? 16 then ret VMM_EINVALID
  else if negb (type =? VMM_IRQ_TYPE_LEVEL_HIGH)
          && negb (type =? VMM_IRQ_TYPE_EDGE_RISING) then ret VMM_EINVALID
  else
    let! val := gic_read (base +@ GIC_DIST_CONFIG +@ confoff) in
    let val :=
      if type =? VMM_IRQ_TYPE_LEVEL_HIGH
      then Z.land val (u32 (Z.lnot confmask))
      else if type =? VMM_IRQ_TYPE_EDGE_RISING then Z.lor val confmask
      else val in
    let! en := gic_read (base +@ GIC_DIST_ENABLE_SET +@ enableoff) in
    let enabled := negb (Z.land en enablemask =? 0) in
    when enabled
      (gic_write enablemask (base +@ GIC_DIST_ENABLE_CLEAR +@ enableoff)) ;;
    gic_write val (base +@ GIC_DIST_CONFIG +@ confoff) ;;
    when enabled
      (gic_write enablemask (base +@ GIC_DIST_ENABLE_SET +@ enableoff)) ;;
    ret 0.

(** [mask] is the first word of the CPU mask, [*vmm_cpumask_bits(mask)]. *)
Definition gic_raise (irq : vmm_host_irq) (mask : Z) : M unit :=
  let map := mask in
  arch_wmb ;;
  let! gic0 := gic_deref 0 in
  gic_write (u32 (Z.lor (Z.shiftl map 16) (num irq)))
    (dist_base gic0 +@ GIC_DIST_SOFTINT).

Definition gic_set_affinity (irq : vmm_host_irq) (mask_val : Z)
    (force : bool) : M Z :=
  let shift := u32 (num irq mod 4 * 8) in
  let cpu := u32 (vmm_cpumask_first mask_val) in
  if 8 <=? cpu then ret VMM_EINVALID
  else
    let! gic := vmm_host_irq_get_chip_data irq in
    let reg := dist_base gic +@ GIC_DIST_TARGET
               +@ Z.land (gic_irq gic irq) (u32 (Z.lnot 3)) in
    let mask := u32 (Z.shiftl 0xff shift) in
    let bit := u32 (Z.shiftl 1 (cpu + shift)) in
    let! r := gic_read reg in
    let val := Z.land r (u32 (Z.lnot mask)) in
    gic_write (Z.lor val bit) reg ;;
    ret 0.

Definition gic_handle_cascade_irq (irq : Z) (dev : nat) : M vmm_irq_return_t :=
  let! gic := gic_deref dev in
  let! r := gic_read (cpu_base gic +@ GIC_CPU_INTACK) in
  let gic_irq := Z.land r 0x3FF in
  if gic_irq =? 1023 then ret VMM_IRQ_NONE
  else
    let cascade_irq := u32 (gic_irq + irq_offset gic) in
    when ((32 <=? gic_irq) && (gic_irq <=? 1020))
      (vmm_host_generic_irq_exec cascade_irq) ;;
    ret VMM_IRQ_HANDLED.

(** *** Initialisation *)

Definition gic_cascade_irq (gic_nr irq : Z) : M unit :=
  when (GIC_MAX_NR <=? gic_nr) BUG ;;
  let! rc := vmm_host_irq_register irq "GIC-CHILD" gic_handle_cascade_irq_fn
               (Z.to_nat gic_nr) in
  when (negb (rc =? 0)) BUG.

(** Lines 303-309 of [gic_dist_init]: the number of lines to register. *)
Definition gic_dist_irq_limit (gic : gic_chip_data) (max_irq : Z) : M Z :=
  let irq_limit := u32 (irq_offset gic + max_irq) in
  let! over := WARN_ON (irq_limit >? CONFIG_HOST_IRQ_COUNT) in
  ret (if over then CONFIG_HOST_IRQ_COUNT else irq_limit).

Definition gic_dist_init (gic : nat) (irq_start : Z) : M unit :=
  let cpumask := u32 (Z.shiftl 1 vmm_smp_processor_id) in
  let! g := gic_deref gic in
  let base := dist_base g in
  let cpumask := Z.lor cpumask (u32 (Z.shiftl cpumask 8)) in
  let cpumask := Z.lor cpumask (u32 (Z.shiftl cpumask 16)) in
  gic_write 0 (base +@ GIC_DIST_CTRL) ;;
  let! r := gic_read (base +@ GIC_DIST_CTR) in
  let max_irq := Z.land r 0x1f in
  let max_irq := u32 ((max_irq + 1) * 32) in
  let max_irq := if max_irq >? 1020 then 1020 else max_irq in
  for_loop 32 max_irq 16 (fun i =>
    gic_write 0 (base +@ GIC_DIST_CONFIG +@ u32 (u32 (i * 4) / 16))) ;;
  for_loop 32 max_irq 4 (fun i =>
    gic_write cpumask (base +@ GIC_DIST_TARGET +@ u32 (u32 (i * 4) / 4))) ;;
  for_loop 0 max_irq 4 (fun i =>
    gic_write 0xa0a0a0a0 (base +@ GIC_DIST_PRI +@ u32 (u32 (i * 4) / 4))) ;;
  for_loop 0 max_irq 32 (fun i =>
    gic_write 0xffffffff
      (base +@ GIC_DIST_ENABLE_CLEAR +@ u32 (u32 (i * 4) / 32))) ;;
  let! g := gic_deref gic in
  let! irq_limit := gic_dist_irq_limit g max_irq in
  for_loop 0 irq_limit 1 (fun i =>
    vmm_host_irq_set_chip i gic_chip ;;
    vmm_host_irq_set_chip_data i gic ;;
    vmm_host_irq_set_handler i vmm_handle_fast_eoi ;;
    when (i <? 32) (vmm_host_irq_mark_per_cpu i)) ;;
  gic_write 1 (base +@ GIC_DIST_CTRL).

Definition gic_cpu_init (gic : nat) : M unit :=
  let! g := gic_deref gic in
  gic_write 0xffff0000 (dist_base g +@ GIC_DIST_ENABLE_CLEAR) ;;
  gic_write 0x0000ffff (dist_base g +@ GIC_DIST_ENABLE_SET) ;;
  for_loop 0 32 4 (fun i =>
    gic_write 0xa0a0a0a0 (dist_base g +@ GIC_DIST_PRI +@ (i * 4 / 4))) ;;
  gic_write 0xf0 (cpu_base g +@ GIC_CPU_PRIMASK) ;;
  if eoimode g
  then gic_write (Z.lor 1 (Z.shiftl 1 9)) (cpu_base g +@ GIC_CPU_CTRL)
  else gic_write 1 (cpu_base g +@ GIC_CPU_CTRL).

(** A store through a pointer into [gic_data]. *)
Definition gic_store (p : nat) (f : gic_chip_data -> gic_chip_data) : M unit :=
  modify (fun w => set_gic_data (alter f p (gic_data w)) w).

Definition gic_init_bases (gic_nr : Z) (eoimode0 : bool) (irq_start : Z)
    (cpu_base0 cpu2_base0 dist_base0 : Z) : M Z :=
  when (GIC_MAX_NR <=? gic_nr) BUG ;;
  let gic := Z.to_nat gic_nr in
  gic_store gic (fun g =>
    mk_gic eoimode0 (Z.land (u32 (irq_start - 1)) (u32 (Z.lnot 31)))
      (gic_irqs g) dist_base0 cpu_base0 cpu2_base0) ;;
  let! g := gic_deref gic in
  let! r := gic_read (dist_base g +@ GIC_DIST_CTR) in
  let gic_irqs0 := Z.land r 0x1f in
  let gic_irqs0 := u32 ((gic_irqs0 + 1) * 32) in
  let gic_irqs0 := if gic_irqs0 >? 1020 then 1020 else gic_irqs0 in
  gic_store gic (fun g =>
    mk_gic (eoimode g) (irq_offset g) gic_irqs0
      (dist_base g) (cpu_base g) (cpu2_base g)) ;;
  gic_dist_init gic irq_start ;;
  gic_cpu_init gic ;;
  ret VMM_OK.

Definition gic_secondary_init (gic_nr : Z) : M unit :=
  when (GIC_MAX_NR <=? gic_nr) BUG ;;
  gic_cpu_init (Z.to_nat gic_nr).

(** [!node] for a nullable pointer. *)
Definition is_null {A} (p : option A) : bool :=
  match p with Some _ => false | None => true end.

(** The current value of the static [gic_cnt]. *)
Definition read_gic_cnt : M Z := fun w => (Some (gic_cnt w), w).

(** [WARN(cond, msg)]. *)
Definition WARN (c : bool) : M unit := when c (emit EvWarn).

(** Modelled from the spec: [vmm_devtree_regmap(node, &addr, regset)]
    resolves a register window of the node; a failed mapping leaves the
    local untouched. *)
Definition vmm_devtree_regmap (node : vmm_devtree_node) (old : Z)
    (regset : Z) : bool * Z :=
  match dn_regmap node regset with
  | Some a => (false, a)
  | None => (true, old)
  end.

(** Modelled from the spec: [vmm_devtree_read_u32(node, attr, &val)] reads
    an attribute of the node; a failed read leaves the local untouched. *)
Definition vmm_devtree_read_u32 (node : vmm_devtree_node) (attr : string)
    (old : Z) : bool * Z :=
  match dn_u32 node attr with
  | Some v => (false, u32 v)
  | None => (true, old)
  end.

Definition gic_devtree_init (node parent : option vmm_devtree_node)
    (eoimode0 : bool) : M Z :=
  let! nonode := WARN_ON (is_null node) in
  match node with
  | None => ret VMM_ENODEV
  | Some node =>
    let '(rc, dist_base0) := vmm_devtree_regmap node uninit 0 in
    WARN rc ;;
    let '(rc, cpu_base0) := vmm_devtree_regmap node uninit 1 in
    WARN rc ;;
    let '(rc, cpu2_base0) := vmm_devtree_regmap node uninit 4 in
    let cpu2_base0 := if rc then cpu_base0 +@ 0x1000 else cpu2_base0 in
    let '(rc, irq) := vmm_devtree_read_u32 node "irq_start" uninit in
    WARN rc ;;
    let irq := if rc then 0 else irq in
    let! cnt := read_gic_cnt in
    gic_init_bases (u32 cnt) eoimode0 irq cpu_base0 cpu2_base0 dist_base0 ;;
    match parent with
    | Some _ =>
        let '(rc, irq) := vmm_devtree_read_u32 node "parent_irq" irq in
        let irq := if rc then 1020 else irq in
        gic_cascade_irq (u32 cnt) irq
    | None =>
        vmm_host_irq_set_active_callback gic_active_irq_fn
    end ;;
    modify (fun w => set_gic_cnt (gic_cnt w + 1) w) ;;
    ret VMM_OK
  end.

Definition gic_init (node : option vmm_devtree_node) : M Z :=
  if vmm_smp_is_bootcpu then gic_devtree_init node None false
  else gic_secondary_init 0 ;; ret VMM_OK.

Definition gic_eoimode_init (node : option vmm_devtree_node) : M Z :=
  if vmm_smp_is_bootcpu then gic_devtree_init node None true
  else gic_secondary_init 0 ;; ret VMM_OK.

(** ** Specification vocabulary *)

(** [returns m w Q]: from [w], the computation [m] returns (it does not stop
    in [BUG()]) with a result and a final world that satisfy [Q]. *)
Definition returns {A} (m : M A) (w : world) (Q : A -> world -> Prop) : Prop :=
  exists a w', m w = (Some a, w') /\ Q a w'.

(** [outcome m w Q]: the result of [m] from [w], [None] for a stop in
    [BUG()], and its final world satisfy [Q]. *)
Definition outcome {A} (m : M A) (w : world)
    (Q : option A -> world -> Prop) : Prop :=
  Q (fst (m w)) (snd (m w)).

(** Events that are register accesses or diagnostics, not calls into the
    host framework. *)
Definition quiet (e : event) : Prop :=
  match e with
  | EvRead _ | EvWrite _ _ | EvWarn => True
  | _ => False
  end.

(** [frame w0 w]: [w] has the static driver data of [w0], and its trace is
    the trace of [w0] followed by quiet events only. *)
Definition frame (w0 w : world) : Prop :=
  gic_data w = gic_data w0 /\ gic_cnt w = gic_cnt w0 /\
  active_cb w = active_cb w0 /\
  exists tr, trace w = trace w0 ++ tr /\ Forall quiet tr.

(** The number of lines the distributor reports in [GIC_DIST_CTR], capped at
    1020 (lines 262-272 and 381-384). *)
Definition line_count (ctr : Z) : Z :=
  let n := u32 ((Z.land ctr 0x1f + 1) * 32) in
  if n >? 1020 then 1020 else n.

(** The entry of a line after [gic_dist_init] has registered it for the
    controller at [gic]. *)
Definition registered (gic : nat) (i : Z) (old : host_irq_entry) : host_irq_entry :=
  mk_hirq (Some gic_chip) (Some gic) (Some vmm_handle_fast_eoi)
    ((i <? 32) || hirq_per_cpu old).

(** The registration limit of lines 306-309 as a function of the controller
    and the line count. *)
Definition irq_limit_of (g : gic_chip_data) (max_irq : Z) : Z :=
  let irq_limit := u32 (irq_offset g + max_irq) in
  if irq_limit >? CONFIG_HOST_IRQ_COUNT then CONFIG_HOST_IRQ_COUNT
  else irq_limit.

(** The line count [gic_dist_init] reads: [GIC_DIST_CTR] after distribution
    has been switched off. *)
Definition dist_max_irq (h : gic_hw) (base : Z) : Z :=
  line_count (hw_read (hw_write h 0 (base +@ GIC_DIST_CTRL))
                (base +@ GIC_DIST_CTR)).

(** The controller entry that [gic_init_bases] creates. *)
Definition created (h : gic_hw) (eoimode0 : bool) (irq_start : Z)
    (cpu_base0 cpu2_base0 dist_base0 : Z) : gic_chip_data :=
  mk_gic eoimode0 (Z.land (u32 (irq_start - 1)) (u32 (Z.lnot 31)))
    (line_count (hw_read h (dist_base0 +@ GIC_DIST_CTR)))
    dist_base0 cpu_base0 cpu2_base0.

(** The world after [WARN(c, ...)]. *)
Definition warn_if (c : bool) (w : world) : world :=
  if c then log EvWarn w else w.






(** ** A concrete platform

    A 32-bit board with 1024 host lines and two controllers, the second
    cascaded into the first: controller 0 has [irq_offset] 32, 64 lines and
    plain end-of-interrupt; controller 1 has [irq_offset] 64 and split
    end-of-interrupt.  Controller 0 acknowledges line 8, controller 1
    line 33. *)

Definition ex_gic0 : gic_chip_data :=
  mk_gic false 32 64 0x1e001000 0x1e000000 0x1e010000.

Definition ex_gic1 : gic_chip_data :=
  mk_gic true 64 96 0x1e021000 0x1e020000 0x1e030000.

Definition ex_mem (addr : Z) : Z :=
  if addr =? 0x1e00000c then 8
  else if addr =? 0x1e02000c then 33
  else if addr =? 0x1e001004 then 1
  else 0.

Definition ex_enable (word : Z) : Z :=
  if word =? 2 then 0x100 else 0.

Definition ex_hw : gic_hw := mk_hw 0x1e001000 ex_enable ex_mem.

Definition ex_world : world :=
  mk_world ex_hw 1 [ex_gic0; ex_gic1] ∅ None [].

(** The index of the lowest set bit, or 32 for an empty mask. *)
Definition ex_cpumask_first (mask : Z) : Z :=
  if mask =? 0 then 32 else Z.log2 (Z.land mask (- mask)).

(** A host framework that accepts the lines below its capacity. *)
Definition ex_register_rc (hirq : Z) : Z :=
  if hirq <? 1024 then 0 else -1.

(** The node of a cascaded controller that names neither its first line nor
    its parent line. *)
Definition ex_child_node : vmm_devtree_node :=
  mk_node (fun i => if i =? 0 then Some 0x1e021000
                    else if i =? 1 then Some 0x1e020000 else None)
          (fun _ => None).

Definition ex_parent_node : vmm_devtree_node :=
  mk_node (fun i => if i =? 0 then Some 0x1e001000
                    else if i =? 1 then Some 0x1e000000 else None)
          (fun a => if String.eqb a "irq_start" then Some 33 else None).

(** Hardware whose distributor reports the largest line count. *)
Definition full_mem (addr : Z) : Z :=
  if addr =? 0x1e001004 then 31 else 0.

Definition full_world : world :=
  mk_world (mk_hw 0x1e001000 (fun _ => 0) full_mem) 0
    [gic_zero; gic_zero] ∅ None [].

(** ** Reasoning about runs *)

Lemma returns_ret {A} (a : A) w (Q : A -> world -> Prop) :
  Q a w -> returns (ret a) w Q.
Proof. intros HQ. exists a, w. split; [reflexivity | exact HQ]. Qed.

Lemma returns_bind {A B} (m : M A) (k : A -> M B) w (Q : B -> world -> Prop) :
  returns m w (fun a w' => returns (k a) w' Q) -> returns (bind m k) w Q.
Proof.
  intros (a & w' & Hm & b & w'' & Hk & HQ).
  exists b, w''. unfold bind. rewrite Hm. split; assumption.
Qed.

Lemma returns_weaken {A} (m : M A) w (Q Q' : A -> world -> Prop) :
  returns m w Q -> (forall a w', Q a w' -> Q' a w') -> returns m w Q'.
Proof. intros (a & w' & Hm & HQ) Himp. exists a, w'. auto. Qed.

Lemma returns_modify f w (Q : unit -> world -> Prop) :
  Q tt (f w) -> returns (modify f) w Q.
Proof. intros HQ. exists tt, (f w). split; [reflexivity | exact HQ]. Qed.

Lemma returns_when (b : bool) m w (Q : unit -> world -> Prop) :
  (b = true -> returns m w Q) -> (b = false -> Q tt w) ->
  returns (when b m) w Q.
Proof.
  destruct b; simpl; intros Ht Hf; [auto | apply returns_ret; auto].
Qed.

Lemma returns_run {A} (m : M A) w (Q : A -> world -> Prop) :
  returns m w Q -> exists a, fst (m w) = Some a /\ Q a (snd (m w)).
Proof. intros (a & w' & Hm & HQ). rewrite Hm. exists a. auto. Qed.

Lemma outcome_bind {A B} (m : M A) (k : A -> M B) w
    (Q : option B -> world -> Prop) :
  returns m w (fun a w' => outcome (k a) w' Q) -> outcome (bind m k) w Q.
Proof.
  intros (a & w' & Hm & HQ). unfold outcome, bind. rewrite Hm. exact HQ.
Qed.

(** A loop maintains an invariant indexed by the number of iterations done. *)
Lemma returns_for_steps (I : nat -> world -> Prop) n i step body w :
  I O w ->
  (forall (k : nat) w', (k < n)%nat -> I k w' ->
     returns (body (i + Z.of_nat k * step)) w' (fun _ w'' => I (S k) w'')) ->
  returns (for_steps n i step body) w (fun _ w' => I n w').
Proof.
  revert I i w. induction n as [|n IH]; intros I i w H0 Hstep; simpl.
  - apply returns_ret. exact H0.
  - apply returns_bind.
    eapply returns_weaken.
    + specialize (Hstep O w). rewrite Z.mul_0_l, Z.add_0_r in Hstep.
      apply Hstep; [lia | exact H0].
    + intros [] w1 H1. simpl in H1.
      apply (IH (fun k => I (S k))); [exact H1 |].
      intros k w2 Hk H2.
      replace (i + step + Z.of_nat k * step) with (i + Z.of_nat (S k) * step)
        by lia.
      apply Hstep; [lia | exact H2].
Qed.

(** A loop whose body keeps a property keeps it. *)
Lemma returns_for_loop_keep (P : world -> Prop) lo hi step body w :
  P w ->
  (forall i w', P w' -> returns (body i) w' (fun _ w'' => P w'')) ->
  returns (for_loop lo hi step body) w (fun _ w' => P w').
Proof.
  intros HP Hbody. unfold for_loop.
  apply (returns_for_steps (fun _ => P)); [exact HP |].
  intros k w' _ Hw'. apply Hbody. exact Hw'.
Qed.

(** ** Initialisation: what a run leaves untouched *)

Lemma frame_refl w : frame w w.
Proof.
  repeat split. exists []. rewrite app_nil_r. split; [reflexivity | constructor].
Qed.

Lemma frame_log w0 w e : quiet e -> frame w0 w -> frame w0 (log e w).
Proof.
  intros He (Hd & Hc & Ha & tr & Ht & Hq). repeat split; try assumption.
  exists (tr ++ [e]). simpl. rewrite Ht, app_assoc. split; [reflexivity |].
  apply Forall_app. split; [assumption | repeat constructor; assumption].
Qed.

Lemma frame_set_hw w0 w h : frame w0 w -> frame w0 (set_hw h w).
Proof. intros H. exact H. Qed.

Lemma frame_set_host_irqs w0 w m : frame w0 w -> frame w0 (set_host_irqs m w).
Proof. intros H. exact H. Qed.

Lemma frame_trans w0 w1 w2 : frame w0 w1 -> frame w1 w2 -> frame w0 w2.
Proof.
  intros (Hd & Hc & Ha & tr & Ht & Hq) (Hd' & Hc' & Ha' & tr' & Ht' & Hq').
  repeat split; try congruence.
  exists (tr ++ tr'). rewrite Ht', Ht, app_assoc. split; [reflexivity |].
  apply Forall_app. split; assumption.
Qed.

Lemma returns_gic_write val addr w (Q : unit -> world -> Prop) :
  Q tt (log (EvWrite val addr) (set_hw (hw_write (hw w) val addr) w)) ->
  returns (gic_write val addr) w Q.
Proof. intros HQ. apply returns_modify. exact HQ. Qed.

Lemma returns_gic_read addr w (Q : Z -> world -> Prop) :
  Q (hw_read (hw w) addr) (log (EvRead addr) w) ->
  returns (gic_read addr) w Q.
Proof. intros HQ. eexists _, _. split; [reflexivity | exact HQ]. Qed.

Lemma returns_gic_deref p g w (Q : gic_chip_data -> world -> Prop) :
  gic_data w !! p = Some g -> Q g w -> returns (gic_deref p) w Q.
Proof.
  intros Hg HQ. exists g, w. unfold gic_deref. rewrite Hg. auto.
Qed.

(** A register write keeps the frame and the host framework's table. *)
Lemma gic_write_keeps w0 H val addr w :
  frame w0 w /\ host_irqs w = H ->
  returns (gic_write val addr) w (fun _ w' => frame w0 w' /\ host_irqs w' = H).
Proof.
  intros [Hf HH]. apply returns_gic_write. split; [| exact HH].
  apply frame_log; [exact I | apply frame_set_hw; exact Hf].
Qed.

Lemma write_loop_keeps w0 H lo hi step (val addr : Z -> Z) w :
  frame w0 w /\ host_irqs w = H ->
  returns (for_loop lo hi step (fun i => gic_write (val i) (addr i))) w
    (fun _ w' => frame w0 w' /\ host_irqs w' = H).
Proof.
  intros Hw.
  apply (returns_for_loop_keep (fun w' => frame w0 w' /\ host_irqs w' = H));
    [exact Hw |].
  intros i w' Hw'. apply gic_write_keeps. exact Hw'.
Qed.

(** One more register write, or loop of register writes, under a bind: the
    frame relative to [w0] and the host table [H] carry over from [Hw] to
    the next world. *)
Ltac keep_writes w0 H Hw w' Hw' :=
  apply returns_bind; eapply returns_weaken;
  [ first [ apply (write_loop_keeps w0 H) | apply (gic_write_keeps w0 H) ];
    exact Hw
  | intros [] w' Hw' ].

(** The registration loop of [gic_dist_init] (lines 317-325). *)
Lemma register_loop_spec (gic : nat) (irq_limit : Z) w :
  returns
    (for_loop 0 irq_limit 1 (fun i =>
       vmm_host_irq_set_chip i gic_chip ;;
       vmm_host_irq_set_chip_data i gic ;;
       vmm_host_irq_set_handler i vmm_handle_fast_eoi ;;
       when (i <? 32) (vmm_host_irq_mark_per_cpu i))) w
    (fun _ w' =>
       frame w w' /\ hw w' = hw w /\
       forall j, host_irqs w' !! j =
         if (0 <=? j) && (j <? irq_limit)
         then Some (registered gic j (hirq_get (host_irqs w) j))
         else host_irqs w !! j).
Proof.
  unfold for_loop.
  set (n := Z.to_nat ((irq_limit - 0 + 1 - 1) / 1)).
  eapply returns_weaken.
  - apply (returns_for_steps (fun k w' =>
       frame w w' /\ hw w' = hw w /\
       forall j, host_irqs w' !! j =
         if (0 <=? j) && (j <? Z.of_nat k)
         then Some (registered gic j (hirq_get (host_irqs w) j))
         else host_irqs w !! j)).
    + split; [apply frame_refl |]. split; [reflexivity |].
      intros j. destruct (Z.leb_spec 0 j), (Z.ltb_spec j (Z.of_nat 0));
        simpl; try reflexivity; lia.
    + intros k w' Hk (Hf & Hhw & Hlk).
      replace (0 + Z.of_nat k * 1) with (Z.of_nat k) by lia.
      set (i := Z.of_nat k).
      assert (Hold : hirq_get (host_irqs w') i = hirq_get (host_irqs w) i).
      { unfold hirq_get. rewrite Hlk.
        destruct (Z.leb_spec 0 i), (Z.ltb_spec i (Z.of_nat k));
          simpl; try reflexivity; lia. }
      unfold vmm_host_irq_set_chip, vmm_host_irq_set_chip_data,
        vmm_host_irq_set_handler, vmm_host_irq_mark_per_cpu.
      do 3 (apply returns_bind, returns_modify).
      apply returns_when; intros Hlt;
        [apply returns_modify |];
        (split; [exact Hf |]); (split; [exact Hhw |]); intros j; simpl;
        unfold hirq_get; simpl;
        repeat rewrite lookup_insert_eq; simpl;
        (destruct (decide (i = j)) as [<- | Hne];
         [ repeat rewrite lookup_insert_eq;
           destruct (Z.leb_spec 0 i), (Z.ltb_spec i (Z.of_nat (S k)));
             simpl; try lia;
           unfold registered; rewrite Hlt; simpl;
           unfold hirq_get in Hold; try rewrite Hold; reflexivity
         | repeat rewrite lookup_insert_ne by exact Hne;
           rewrite Hlk;
           destruct (Z.leb_spec 0 j), (Z.ltb_spec j (Z.of_nat k)),
             (Z.ltb_spec j (Z.of_nat (S k))); simpl; try reflexivity; lia ]).
  - intros [] w' (Hf & Hhw & Hlk). split; [exact Hf |]. split; [exact Hhw |].
    intros j. rewrite Hlk. subst n.
    replace ((irq_limit - 0 + 1 - 1) / 1) with irq_limit
      by (rewrite Z.div_1_r; lia).
    destruct (Z.leb_spec 0 j), (Z.ltb_spec j (Z.of_nat (Z.to_nat irq_limit))),
      (Z.ltb_spec j irq_limit); simpl; try reflexivity; lia.
Qed.

Lemma gic_dist_irq_limit_spec g max_irq w0 H w :
  frame w0 w /\ host_irqs w = H ->
  returns (gic_dist_irq_limit g max_irq) w
    (fun l w' => l = irq_limit_of g max_irq /\ hw w' = hw w /\
                 frame w0 w' /\ host_irqs w' = H).
Proof.
  intros [Hf HH]. unfold gic_dist_irq_limit, irq_limit_of, WARN_ON.
  destruct (u32 (irq_offset g + max_irq) >? CONFIG_HOST_IRQ_COUNT); simpl.
  - eexists _, _. split; [reflexivity |]. repeat split; try apply Hf.
    + destruct Hf as (_ & _ & _ & tr & Ht & Hq).
      exists (tr ++ [EvWarn]). simpl. rewrite Ht, app_assoc.
      split; [reflexivity |]. apply Forall_app. split; [assumption |].
      repeat constructor.
    + exact HH.
  - eexists _, _. split; [reflexivity |]. repeat split; try apply Hf.
    exact HH.
Qed.

Lemma gic_dist_init_spec (gic : nat) (g : gic_chip_data) (irq_start : Z) w :
  gic_data w !! gic = Some g ->
  returns (gic_dist_init gic irq_start) w
    (fun _ w' =>
       frame w w' /\
       forall j, host_irqs w' !! j =
         if (0 <=? j) && (j <? irq_limit_of g (dist_max_irq (hw w) (dist_base g)))
         then Some (registered gic j (hirq_get (host_irqs w) j))
         else host_irqs w !! j).
Proof.
  intros Hg. unfold gic_dist_init.
  apply returns_bind. eapply returns_gic_deref; [exact Hg |].
  apply returns_bind, returns_gic_write.
  apply returns_bind, returns_gic_read.
  set (w1 := log _ (log _ _)).
  assert (Hw1 : frame w w1 /\ host_irqs w1 = host_irqs w).
  { split; [| reflexivity].
    do 2 (apply frame_log; [exact I |]). apply frame_set_hw, frame_refl. }
  fold (line_count (hw_read (hw_write (hw w) 0 (dist_base g +@ GIC_DIST_CTRL))
                      (dist_base g +@ GIC_DIST_CTR))).
  fold (dist_max_irq (hw w) (dist_base g)).
  set (max_irq := dist_max_irq (hw w) (dist_base g)).
  clearbody w1.
  keep_writes w (host_irqs w) Hw1 w2 Hw2.
  keep_writes w (host_irqs w) Hw2 w3 Hw3.
  keep_writes w (host_irqs w) Hw3 w4 Hw4.
  keep_writes w (host_irqs w) Hw4 w5 Hw5.
  apply returns_bind. eapply returns_gic_deref.
  { destruct Hw5 as [(Hd & _) _]. rewrite Hd. exact Hg. }
  apply returns_bind. eapply returns_weaken;
    [apply (gic_dist_irq_limit_spec g max_irq w (host_irqs w)); exact Hw5 |].
  intros l w6 (-> & _ & Hf6 & HH6).
  apply returns_bind. eapply returns_weaken; [apply register_loop_spec |].
  intros [] w7 (Hf7 & _ & Hlk).
  apply returns_gic_write. split.
  - apply frame_log; [exact I |]. apply frame_set_hw.
    eapply frame_trans; eassumption.
  - intros j. simpl. rewrite Hlk, HH6. reflexivity.
Qed.

Lemma gic_cpu_init_spec (gic : nat) (g : gic_chip_data) w :
  gic_data w !! gic = Some g ->
  returns (gic_cpu_init gic) w
    (fun _ w' => frame w w' /\ host_irqs w' = host_irqs w).
Proof.
  intros Hg. unfold gic_cpu_init.
  apply returns_bind. eapply returns_gic_deref; [exact Hg |].
  assert (Hw0 : frame w w /\ host_irqs w = host_irqs w)
    by (split; [apply frame_refl | reflexivity]).
  keep_writes w (host_irqs w) Hw0 w1 Hw1.
  keep_writes w (host_irqs w) Hw1 w2 Hw2.
  keep_writes w (host_irqs w) Hw2 w3 Hw3.
  keep_writes w (host_irqs w) Hw3 w4 Hw4.
  destruct (eoimode g); apply gic_write_keeps; exact Hw4.
Qed.

Lemma gic_init_bases_spec (gic_nr : Z) (eoimode0 : bool) (irq_start : Z)
    (cpu_base0 cpu2_base0 dist_base0 : Z) (g0 : gic_chip_data) w :
  0 <= gic_nr < GIC_MAX_NR ->
  gic_data w !! Z.to_nat gic_nr = Some g0 ->
  let g := created (hw w) eoimode0 irq_start cpu_base0 cpu2_base0 dist_base0 in
  returns
    (gic_init_bases gic_nr eoimode0 irq_start cpu_base0 cpu2_base0 dist_base0) w
    (fun r w' =>
       r = VMM_OK /\
       gic_data w' = <[Z.to_nat gic_nr := g]> (gic_data w) /\
       gic_cnt w' = gic_cnt w /\ active_cb w' = active_cb w /\
       (exists tr, trace w' = trace w ++ tr /\ Forall quiet tr) /\
       forall j, host_irqs w' !! j =
         if (0 <=? j) && (j <? irq_limit_of g (dist_max_irq (hw w) dist_base0))
         then Some (registered (Z.to_nat gic_nr) j (hirq_get (host_irqs w) j))
         else host_irqs w !! j).
Proof.
  intros Hnr Hg0 g. unfold gic_init_bases.
  destruct (Z.leb_spec GIC_MAX_NR gic_nr) as [Hge | _]; [lia |]. simpl.
  apply returns_bind, returns_ret.
  set (p := Z.to_nat gic_nr) in *.
  assert (Hp : (p < length (gic_data w))%nat)
    by (eapply lookup_lt_Some; exact Hg0).
  unfold gic_store.
  apply returns_bind, returns_modify.
  apply returns_bind. eapply returns_gic_deref.
  { simpl. rewrite list_lookup_alter_eq, Hg0. reflexivity. }
  simpl.
  apply returns_bind, returns_gic_read.
  apply returns_bind, returns_modify. simpl.
  fold (line_count (hw_read (hw w) (dist_base0 +@ GIC_DIST_CTR))).
  set (w3 := set_gic_data _ _).
  assert (Hd3 : gic_data w3 = <[p := g]> (gic_data w)).
  { subst w3. simpl. apply list_eq. intros q.
    destruct (decide (p = q)) as [<- | Hne].
    - rewrite !list_lookup_alter_eq, Hg0, list_lookup_insert_eq by exact Hp.
      reflexivity.
    - rewrite !list_lookup_alter_ne, list_lookup_insert_ne by exact Hne.
      reflexivity. }
  assert (Hg3 : gic_data w3 !! p = Some g).
  { rewrite Hd3. apply list_lookup_insert_eq. exact Hp. }
  apply returns_bind. eapply returns_weaken;
    [apply (gic_dist_init_spec p g); exact Hg3 | intros [] w4 (Hf4 & Hlk)].
  apply returns_bind. eapply returns_weaken.
  { apply (gic_cpu_init_spec p g).
    destruct Hf4 as (Hd & _). rewrite Hd. exact Hg3. }
  intros [] w5 (Hf5 & HH5).
  apply returns_ret.
  pose proof (frame_trans _ _ _ Hf4 Hf5) as (Hd & Hc & Ha & tr & Ht & Hq).
  split; [reflexivity |]. split; [rewrite Hd; exact Hd3 |].
  split; [rewrite Hc; reflexivity |]. split; [rewrite Ha; reflexivity |].
  split.
  - exists (EvRead (dist_base0 +@ GIC_DIST_CTR) :: tr).
    rewrite Ht. subst w3. simpl. rewrite <- app_assoc.
    split; [reflexivity |]. constructor; [exact I | exact Hq].
  - intros j. rewrite HH5, Hlk. reflexivity.
Qed.

(** *** Bit arithmetic *)

Lemma u32_range x : 0 <= u32 x < 2 ^ 32.
Proof. apply Z.mod_pos_bound. reflexivity. Qed.

Lemma land_u32_mask x m : 0 <= x < 2 ^ 32 -> Z.land x (u32 m) = Z.land x m.
Proof.
  intros Hx. unfold u32. rewrite <- (Z.land_ones m 32) by lia.
  rewrite (Z.land_comm m), Z.land_assoc, (Z.land_ones x 32) by lia.
  rewrite Z.mod_small by exact Hx. reflexivity.
Qed.

Lemma land_lnot31 x : Z.land x (Z.lnot 31) = x - x mod 32.
Proof.
  change 31 with (Z.ones 5) at 1.
  rewrite <- Z.ldiff_land, Z.ldiff_ones_r by lia.
  rewrite Z.shiftr_div_pow2, Z.shiftl_mul_pow2 by lia.
  change (2 ^ 5) with 32. pose proof (Z.div_mod x 32). lia.
Qed.

Lemma line_count_range ctr : 0 <= line_count ctr <= 1020.
Proof.
  unfold line_count.
  pose proof (u32_range ((Z.land ctr 31 + 1) * 32)) as Hr.
  destruct (Z.gtb_spec (u32 ((Z.land ctr 31 + 1) * 32)) 1020); lia.
Qed.

Lemma irq_limit_of_min g max_irq :
  irq_limit_of g max_irq =
  Z.min (u32 (irq_offset g + max_irq)) CONFIG_HOST_IRQ_COUNT.
Proof.
  unfold irq_limit_of.
  destruct (Z.gtb_spec (u32 (irq_offset g + max_irq)) CONFIG_HOST_IRQ_COUNT);
    lia.
Qed.

(** ** Initialisation: the claims *)

(** C1.  [gic_dist_init] returns, and every global line number below the
    truncated limit (the [u32] sum of the controller's [irq_offset] and the
    line count read from the distributor, cut down to
    [CONFIG_HOST_IRQ_COUNT]) is registered with the host framework: its chip
    is [gic_chip], its chip data points to this controller, its handler is
    [vmm_handle_fast_eoi]; the lines numbered below 32 are marked per-CPU,
    and the others keep the mark they had. *)
Theorem C1_gic_dist_init (w : world) (gic : nat) (g : gic_chip_data)
    (irq_start : Z) :
  gic_data w !! gic = Some g ->
  let max_irq := dist_max_irq (hw w) (dist_base g) in
  let irq_limit := Z.min (u32 (irq_offset g + max_irq)) CONFIG_HOST_IRQ_COUNT in
  let r := gic_dist_init gic irq_start w in
  fst r = Some tt /\
  forall i, 0 <= i < irq_limit ->
    exists e, host_irqs (snd r) !! i = Some e /\
      hirq_chip e = Some gic_chip /\
      hirq_chip_data e = Some gic /\
      hirq_handler e = Some vmm_handle_fast_eoi /\
      (i < 32 -> hirq_per_cpu e = true) /\
      (32 <= i -> hirq_per_cpu e = hirq_per_cpu (hirq_get (host_irqs w) i)).
Proof.
  intros Hg max_irq irq_limit r.
  destruct (returns_run _ _ _ (gic_dist_init_spec gic g irq_start w Hg))
    as ([] & Hres & _ & Hlk).
  fold r in Hres, Hlk. split; [exact Hres |].
  intros i Hi. specialize (Hlk i).
  rewrite irq_limit_of_min in Hlk. fold max_irq irq_limit in Hlk.
  destruct (Z.leb_spec 0 i); [| lia].
  destruct (Z.ltb_spec i irq_limit); [| lia]. simpl in Hlk.
  eexists. split; [exact Hlk |]. simpl. repeat split.
  - intros Hlt. destruct (Z.ltb_spec i 32); [reflexivity | lia].
  - intros Hge. destruct (Z.ltb_spec i 32); [lia | reflexivity].
Qed.

(** C2, as the driver has it.  The controller that [gic_init_bases] creates
    has an [irq_offset] that is a multiple of 32 and a line count of at most
    1020; the capacity [CONFIG_HOST_IRQ_COUNT] bounds the lines the run
    registers with the host framework (every line whose entry changed is
    below it), not the sum of [irq_offset] and the line count. *)
Theorem C2_gic_init_bases_invariant (w : world) (gic_nr : Z) (eoimode0 : bool)
    (irq_start cpu_base0 cpu2_base0 dist_base0 : Z) (g0 : gic_chip_data) :
  0 <= gic_nr < GIC_MAX_NR ->
  gic_data w !! Z.to_nat gic_nr = Some g0 ->
  let r := gic_init_bases gic_nr eoimode0 irq_start
             cpu_base0 cpu2_base0 dist_base0 w in
  fst r = Some VMM_OK /\
  exists g, gic_data (snd r) !! Z.to_nat gic_nr = Some g /\
    irq_offset g mod 32 = 0 /\
    0 <= gic_irqs g <= 1020 /\
    forall j, host_irqs (snd r) !! j <> host_irqs w !! j ->
      0 <= j < CONFIG_HOST_IRQ_COUNT.
Proof.
  intros Hnr Hg0 r.
  destruct (returns_run _ _ _
              (gic_init_bases_spec gic_nr eoimode0 irq_start
                 cpu_base0 cpu2_base0 dist_base0 g0 w Hnr Hg0))
    as (c & Hres & -> & Hd & _ & _ & _ & Hlk).
  fold r in Hres, Hd, Hlk. split; [exact Hres |].
  eexists. split.
  { rewrite Hd. apply list_lookup_insert_eq. eapply lookup_lt_Some. exact Hg0. }
  simpl. split; [| split].
  - rewrite land_u32_mask by apply u32_range. rewrite land_lnot31.
    pose proof (Z.div_mod (u32 (irq_start - 1)) 32).
    replace (u32 (irq_start - 1) - u32 (irq_start - 1) mod 32)
      with (u32 (irq_start - 1) / 32 * 32) by lia.
    apply Z.mod_mul. lia.
  - apply line_count_range.
  - intros j Hj. rewrite Hlk, irq_limit_of_min in Hj.
    destruct (Z.leb_spec 0 j); [| simpl in Hj; congruence].
    destruct (Z.ltb_spec j (Z.min
       (u32 (irq_offset (created (hw w) eoimode0 irq_start cpu_base0
                           cpu2_base0 dist_base0)
             + dist_max_irq (hw w) dist_base0)) CONFIG_HOST_IRQ_COUNT));
      [lia | simpl in Hj; congruence].
Qed.

(** C10.  [gic_init_bases] stores as [irq_offset] the value
    [((irq_start - 1) mod 2^32) & ~31].  For [irq_start = 0] this is
    [2^32 - 32]; for an [irq_start] that is a positive multiple of 32 it is
    [irq_start - 32]. *)
Theorem C10_gic_init_bases_irq_offset (w : world) (gic_nr : Z)
    (eoimode0 : bool) (irq_start cpu_base0 cpu2_base0 dist_base0 : Z)
    (g0 : gic_chip_data) :
  0 <= gic_nr < GIC_MAX_NR ->
  gic_data w !! Z.to_nat gic_nr = Some g0 ->
  0 <= irq_start < 2 ^ 32 ->
  let r := gic_init_bases gic_nr eoimode0 irq_start
             cpu_base0 cpu2_base0 dist_base0 w in
  exists g, gic_data (snd r) !! Z.to_nat gic_nr = Some g /\
    irq_offset g = Z.land ((irq_start - 1) mod 2 ^ 32) (Z.lnot 31) /\
    (irq_start = 0 -> irq_offset g = 2 ^ 32 - 32) /\
    (0 < irq_start -> irq_start mod 32 = 0 -> irq_offset g = irq_start - 32).
Proof.
  intros Hnr Hg0 Hirq r.
  destruct (returns_run _ _ _
              (gic_init_bases_spec gic_nr eoimode0 irq_start
                 cpu_base0 cpu2_base0 dist_base0 g0 w Hnr Hg0))
    as (c & _ & _ & Hd & _).
  fold r in Hd.
  eexists. split.
  { rewrite Hd. apply list_lookup_insert_eq. eapply lookup_lt_Some. exact Hg0. }
  simpl. rewrite land_u32_mask by apply u32_range.
  split; [reflexivity |]. rewrite land_lnot31. unfold u32.
  change (2 ^ 32) with 4294967296 in *.
  split.
  - intros ->. reflexivity.
  - intros Hpos Hmul.
    rewrite Z.mod_small by lia.
    pose proof (Z.div_mod irq_start 32).
    assert (Hm : (irq_start - 1) mod 32 = 31).
    { replace (irq_start - 1) with (31 + (irq_start / 32 - 1) * 32) by lia.
      rewrite Z.mod_add by lia. reflexivity. }
    lia.
Qed.

Lemma returns_WARN c w (Q : unit -> world -> Prop) :
  Q tt (warn_if c w) -> returns (WARN c) w Q.
Proof.
  intros HQ. unfold WARN. destruct c; simpl in *;
    [apply returns_modify | apply returns_ret]; exact HQ.
Qed.

Lemma frame_warn_if w0 w c : frame w0 w -> frame w0 (warn_if c w).
Proof.
  intros Hf. destruct c; simpl; [apply frame_log; [exact I |] |]; exact Hf.
Qed.


(** C8, as the driver has it.  Bootstrap of a controller that has a parent
    and whose node gives no [parent_irq]: after the controller has been
    initialised, which calls the host framework for no registration, the
    cascade handler is registered for parent line 1020 with the new
    controller as its device.  Bootstrap then completes and counts the
    controller if the host framework accepts line 1020, and stops in
    [BUG()] if it refuses it. *)
Theorem C8_gic_devtree_init_parent_irq_default (w : world)
    (nd pn : vmm_devtree_node) (eoimode0 : bool) (g0 : gic_chip_data) :
  0 <= gic_cnt w < GIC_MAX_NR ->
  gic_data w !! Z.to_nat (gic_cnt w) = Some g0 ->
  dn_u32 nd "parent_irq" = None ->
  let r := gic_devtree_init (Some nd) (Some pn) eoimode0 w in
  (exists pre,
     trace (snd r) =
       trace w ++ pre ++
       [EvIrqRegister 1020 "GIC-CHILD" gic_handle_cascade_irq_fn
          (Z.to_nat (gic_cnt w))] /\
     Forall quiet pre) /\
  (vmm_host_irq_register_rc 1020 = 0 ->
     fst r = Some VMM_OK /\ gic_cnt (snd r) = gic_cnt w + 1) /\
  (vmm_host_irq_register_rc 1020 <> 0 -> fst r = None).
Proof.
  intros Hcnt Hg0 Hpirq r.
  change (outcome (gic_devtree_init (Some nd) (Some pn) eoimode0) w
    (fun res w' =>
       (exists pre,
          trace w' =
            trace w ++ pre ++
            [EvIrqRegister 1020 "GIC-CHILD" gic_handle_cascade_irq_fn
               (Z.to_nat (gic_cnt w))] /\
          Forall quiet pre) /\
       (vmm_host_irq_register_rc 1020 = 0 ->
          res = Some VMM_OK /\ gic_cnt w' = gic_cnt w + 1) /\
       (vmm_host_irq_register_rc 1020 <> 0 -> res = None))).
  clear r. unfold gic_devtree_init.
  apply outcome_bind. unfold WARN_ON. simpl.
  apply returns_bind, returns_ret, returns_ret.
  destruct (vmm_devtree_regmap nd uninit 0) as [rc0 db].
  apply outcome_bind, returns_WARN.
  destruct (vmm_devtree_regmap nd uninit 1) as [rc1 cb].
  apply outcome_bind, returns_WARN.
  destruct (vmm_devtree_regmap nd uninit 4) as [rc4 c2].
  destruct (vmm_devtree_read_u32 nd "irq_start" uninit) as [rc3 irq].
  apply outcome_bind, returns_WARN.
  set (w0 := warn_if rc3 (warn_if rc1 (warn_if rc0 w))).
  assert (Hf0 : frame w w0)
    by (subst w0; repeat apply frame_warn_if; apply frame_refl).
  destruct Hf0 as (Hd0 & Hc0 & _ & tr0 & Ht0 & Hq0).
  assert (Hu : u32 (gic_cnt w0) = gic_cnt w).
  { rewrite Hc0. unfold u32. apply Z.mod_small. unfold GIC_MAX_NR in Hcnt.
    change (2 ^ 32) with 4294967296. lia. }
  apply outcome_bind. exists (gic_cnt w0), w0. split; [reflexivity |].
  rewrite Hu.
  apply outcome_bind. eapply returns_weaken.
  { apply (gic_init_bases_spec _ _ _ _ _ _ g0); [exact Hcnt |].
    rewrite Hd0. exact Hg0. }
  intros c w1 (_ & _ & Hc1 & _ & (tr1 & Ht1 & Hq1) & _).
  unfold vmm_devtree_read_u32. rewrite Hpirq.
  unfold outcome, gic_cascade_irq, vmm_host_irq_register, bind, emit, modify.
  destruct (Z.leb_spec GIC_MAX_NR (gic_cnt w)) as [Hge | _]; [lia |]. simpl.
  assert (Htr : trace w1 ++
                [EvIrqRegister 1020 "GIC-CHILD" gic_handle_cascade_irq_fn
                   (Z.to_nat (gic_cnt w))] =
                trace w ++ (tr0 ++ tr1) ++
                [EvIrqRegister 1020 "GIC-CHILD" gic_handle_cascade_irq_fn
                   (Z.to_nat (gic_cnt w))]).
  { rewrite Ht1, Ht0, <- !app_assoc. reflexivity. }
  assert (Hq : Forall quiet (tr0 ++ tr1))
    by (apply Forall_app; split; assumption).
  destruct (Z.eqb_spec (vmm_host_irq_register_rc 1020) 0) as [Hrc | Hrc]; simpl.
  - split; [exists (tr0 ++ tr1); split; assumption |].
    split; [intros _; rewrite Hc1, Hc0; split; reflexivity | contradiction].
  - split; [exists (tr0 ++ tr1); split; assumption |].
    split; [contradiction | reflexivity].
Qed.

(** ** Chip operations: runtime behaviour *)

Lemma land_3FF_range r : 0 <= Z.land r 0x3FF <= 1023.
Proof.
  change 0x3FF with (Z.ones 10). rewrite Z.land_ones by lia.
  pose proof (Z.mod_pos_bound r (2 ^ 10) eq_refl) as Hb.
  change (2 ^ 10) with 1024 in *. change (Z.ones 10) with 1023. lia.
Qed.

(** C4.  The acknowledge register of the first controller is read once and
    masked to its 10-bit field [v].  For [v] in [0, 1020] the active-interrupt
    reader returns [v] plus the first controller's [irq_offset], a [u32] sum
    that is the plain sum whenever that fits in 32 bits; for [v] in
    [1021, 1023] it returns the sentinel [UINT_MAX]. *)
Theorem C4_gic_active_irq (w : world) (gic0 : gic_chip_data) (cpu_irq_nr v : Z) :
  gic_data w !! 0%nat = Some gic0 ->
  Z.land (hw_read (hw w) (cpu_base gic0 +@ GIC_CPU_INTACK)) 0x3FF = v ->
  0 <= v <= 1023 /\
  (0 <= v <= 1020 ->
     fst (gic_active_irq cpu_irq_nr w) = Some (u32 (v + irq_offset gic0))) /\
  (0 <= v <= 1020 -> 0 <= irq_offset gic0 -> v + irq_offset gic0 < 2 ^ 32 ->
     fst (gic_active_irq cpu_irq_nr w) = Some (v + irq_offset gic0)) /\
  (1021 <= v <= 1023 ->
     fst (gic_active_irq cpu_irq_nr w) = Some UINT_MAX).
Proof.
  intros Hg Hv.
  split; [subst v; apply land_3FF_range |].
  unfold gic_active_irq, bind, gic_deref, gic_read, ret. rewrite Hg. simpl.
  rewrite Hv.
  split; [| split]; intros Hr.
  - destruct (Z.ltb_spec v 1021) as [_ | Hge]; [reflexivity | lia].
  - intros Hoff Hfit.
    destruct (Z.ltb_spec v 1021) as [_ | Hge]; [| lia].
    simpl. unfold u32. rewrite Z.mod_small by lia. reflexivity.
  - destruct (Z.ltb_spec v 1021) as [Hlt | _]; [lia | reflexivity].
Qed.

(** C3.  The cascade handler reads the child's acknowledge register once and
    masks it to the 10-bit value [v].  [v = 1023]: not handled, no dispatch.
    [v] in [32, 1020]: handled, with exactly one call of the generic dispatch
    entry point, on the [u32] sum of [v] and the child's [irq_offset], which
    is the plain sum whenever that fits in 32 bits.  Any other [v]: handled,
    no dispatch. *)
Theorem C3_gic_handle_cascade_irq (w : world) (irq : Z) (dev : nat)
    (gic : gic_chip_data) (v : Z) :
  gic_data w !! dev = Some gic ->
  Z.land (hw_read (hw w) (cpu_base gic +@ GIC_CPU_INTACK)) 0x3FF = v ->
  let ack := EvRead (cpu_base gic +@ GIC_CPU_INTACK) in
  let r := gic_handle_cascade_irq irq dev w in
  (v = 1023 ->
     fst r = Some VMM_IRQ_NONE /\ trace (snd r) = trace w ++ [ack]) /\
  (32 <= v <= 1020 ->
     fst r = Some VMM_IRQ_HANDLED /\
     trace (snd r) = trace w ++ [ack; EvIrqExec (u32 (v + irq_offset gic))]) /\
  (32 <= v <= 1020 -> 0 <= irq_offset gic -> v + irq_offset gic < 2 ^ 32 ->
     trace (snd r) = trace w ++ [ack; EvIrqExec (v + irq_offset gic)]) /\
  (0 <= v <= 31 \/ 1021 <= v <= 1022 ->
     fst r = Some VMM_IRQ_HANDLED /\ trace (snd r) = trace w ++ [ack]).
Proof.
  intros Hg Hv ack r. subst r ack.
  unfold gic_handle_cascade_irq, bind, gic_deref, gic_read, ret.
  rewrite Hg. simpl. rewrite Hv.
  assert (Happ : forall e1 e2 : event,
            (trace w ++ [e1]) ++ [e2] = trace w ++ [e1; e2]).
  { intros e1 e2. rewrite <- app_assoc. reflexivity. }
  split; [| split; [| split]]; intros Hr.
  - rewrite Hr. split; reflexivity.
  - destruct (Z.eqb_spec v 1023) as [-> | _]; [lia |].
    destruct (Z.leb_spec 32 v); [| lia]. destruct (Z.leb_spec v 1020); [| lia].
    simpl. unfold vmm_host_generic_irq_exec, emit, modify. simpl.
    rewrite Happ. split; reflexivity.
  - intros Hoff Hfit.
    destruct (Z.eqb_spec v 1023) as [-> | _]; [lia |].
    destruct (Z.leb_spec 32 v); [| lia]. destruct (Z.leb_spec v 1020); [| lia].
    simpl. unfold vmm_host_generic_irq_exec, emit, modify. simpl.
    rewrite Happ. unfold u32. rewrite Z.mod_small by lia. reflexivity.
  - destruct (Z.eqb_spec v 1023) as [-> | _]; [lia |].
    destruct (Z.leb_spec 32 v), (Z.leb_spec v 1020); try lia;
      split; reflexivity.
Qed.

(** C6.  End-of-interrupt writes the local line number to the EOI register
    and, in split mode, then writes the same number to the deactivate
    register of the secondary CPU interface; these are the only accesses. *)
Theorem C6_gic_eoi_irq (w : world) (irq : vmm_host_irq) (gic : gic_chip_data) :
  gic_data w !! chip_data irq = Some gic ->
  let irq_no := u32 (num irq - irq_offset gic) in
  let r := gic_eoi_irq irq w in
  fst r = Some tt /\
  trace (snd r) =
    trace w ++
    (if eoimode gic
     then [EvWrite irq_no (cpu_base gic +@ GIC_CPU_EOI);
           EvWrite irq_no (cpu2_base gic +@ GIC_CPU2_DIR)]
     else [EvWrite irq_no (cpu_base gic +@ GIC_CPU_EOI)]).
Proof.
  intros Hg irq_no r. subst r irq_no.
  unfold gic_eoi_irq, vmm_host_irq_get_chip_data, bind, gic_deref.
  rewrite Hg. unfold gic_write, modify, gic_irq. simpl.
  destruct (eoimode gic); simpl; [rewrite <- app_assoc |]; auto.
Qed.

(** C7.  The rejected operations: a trigger type for a line with local
    number below 16, a trigger type that is neither level-high nor
    edge-rising, and an affinity whose first target core is 8 or more.  Each
    returns [VMM_EINVALID] and leaves the whole world, hardware and trace
    included, as it was: no register is read or written. *)
Theorem C7_invalid_arguments (w : world) (irq : vmm_host_irq)
    (gic : gic_chip_data) (type mask_val : Z) (force : bool) :
  gic_data w !! chip_data irq = Some gic ->
  (gic_irq gic irq < 16 ->
     gic_set_type irq type w = (Some VMM_EINVALID, w)) /\
  (type <> VMM_IRQ_TYPE_LEVEL_HIGH -> type <> VMM_IRQ_TYPE_EDGE_RISING ->
     gic_set_type irq type w = (Some VMM_EINVALID, w)) /\
  (8 <= u32 (vmm_cpumask_first mask_val) ->
     gic_set_affinity irq mask_val force w = (Some VMM_EINVALID, w)).
Proof.
  intros Hg. split; [| split].
  - intros Hlt.
    unfold gic_set_type, vmm_host_irq_get_chip_data, bind, gic_deref.
    rewrite Hg.
    destruct (Z.ltb_spec (gic_irq gic irq) 16); [reflexivity | lia].
  - intros Hlh Her.
    unfold gic_set_type, vmm_host_irq_get_chip_data, bind, gic_deref.
    rewrite Hg.
    destruct (Z.ltb_spec (gic_irq gic irq) 16); [reflexivity |].
    destruct (Z.eqb_spec type VMM_IRQ_TYPE_LEVEL_HIGH); [contradiction |].
    destruct (Z.eqb_spec type VMM_IRQ_TYPE_EDGE_RISING); [contradiction |].
    reflexivity.
  - intros Hcpu. unfold gic_set_affinity.
    destruct (Z.leb_spec 8 (u32 (vmm_cpumask_first mask_val))); [reflexivity | lia].
Qed.

(** C9.  Raising a software-generated interrupt issues the barrier
    [arch_wmb()] and then, as its only register access, writes the mask
    shifted left by 16 or-ed with the line's number to the software-interrupt
    register of [gic_data[0]], whichever controller the line belongs to. *)
Theorem C9_gic_raise (w : world) (irq : vmm_host_irq) (mask : Z)
    (gic0 : gic_chip_data) :
  gic_data w !! 0%nat = Some gic0 ->
  let r := gic_raise irq mask w in
  fst r = Some tt /\
  trace (snd r) =
    trace w ++
    [EvWmb;
     EvWrite (u32 (Z.lor (Z.shiftl mask 16) (num irq)))
       (dist_base gic0 +@ GIC_DIST_SOFTINT)].
Proof.
  intros Hg r. subst r.
  unfold gic_raise, arch_wmb, emit, modify, bind, gic_deref. simpl.
  rewrite Hg. unfold gic_write, modify. simpl.
  rewrite <- app_assoc. auto.
Qed.

(** *** The enable state across [gic_set_type] *)

Lemma va_offset dist c f :
  0 <= c + f < 2 ^ VA_BITS ->
  (dist +@ c +@ f - dist) mod 2 ^ VA_BITS = c + f.
Proof.
  intros Hr. unfold va_add.
  rewrite Zplus_mod_idemp_l, Zminus_mod_idemp_l.
  replace (dist + c + f - dist) with (c + f) by lia.
  apply Z.mod_small. exact Hr.
Qed.

Lemma va_window : 12 <= VA_BITS -> 4096 <= 2 ^ VA_BITS.
Proof.
  intros Hva. change 4096 with (2 ^ 12). apply Z.pow_le_mono_r; lia.
Qed.

Lemma decode_enable_set dist k :
  12 <= VA_BITS -> 0 <= k < 32 ->
  decode dist (dist +@ GIC_DIST_ENABLE_SET +@ k * 4) = RegEnableSet k.
Proof.
  intros Hva Hk. pose proof (va_window Hva) as Hw. unfold decode.
  rewrite va_offset by (unfold GIC_DIST_ENABLE_SET; lia).
  unfold GIC_DIST_ENABLE_SET, GIC_DIST_ENABLE_CLEAR.
  replace ((256 + k * 4) mod 4) with 0
    by (replace (256 + k * 4) with ((64 + k) * 4) by lia;
        rewrite Z.mod_mul; lia).
  destruct (Z.leb_spec 256 (256 + k * 4)); [| lia].
  destruct (Z.ltb_spec (256 + k * 4) 384); [| lia]. simpl.
  f_equal. replace (256 + k * 4 - 256) with (k * 4) by lia.
  apply Z.div_mul. lia.
Qed.

Lemma decode_enable_clear dist k :
  12 <= VA_BITS -> 0 <= k < 32 ->
  decode dist (dist +@ GIC_DIST_ENABLE_CLEAR +@ k * 4) = RegEnableClear k.
Proof.
  intros Hva Hk. pose proof (va_window Hva) as Hw. unfold decode.
  rewrite va_offset by (unfold GIC_DIST_ENABLE_CLEAR; lia).
  unfold GIC_DIST_ENABLE_SET, GIC_DIST_ENABLE_CLEAR, GIC_DIST_PENDING_SET.
  replace ((384 + k * 4) mod 4) with 0
    by (replace (384 + k * 4) with ((96 + k) * 4) by lia;
        rewrite Z.mod_mul; lia).
  destruct (Z.leb_spec 256 (384 + k * 4)); [| lia].
  destruct (Z.ltb_spec (384 + k * 4) 384); [lia |].
  destruct (Z.leb_spec 384 (384 + k * 4)); [| lia].
  destruct (Z.ltb_spec (384 + k * 4) 512); [| lia]. simpl.
  f_equal. replace (384 + k * 4 - 384) with (k * 4) by lia.
  apply Z.div_mul. lia.
Qed.

Lemma decode_config dist k :
  12 <= VA_BITS -> 0 <= k < 64 ->
  decode dist (dist +@ GIC_DIST_CONFIG +@ k * 4) = RegPlain.
Proof.
  intros Hva Hk. pose proof (va_window Hva) as Hw. unfold decode.
  rewrite va_offset by (unfold GIC_DIST_CONFIG; lia).
  unfold GIC_DIST_ENABLE_SET, GIC_DIST_ENABLE_CLEAR, GIC_DIST_PENDING_SET,
    GIC_DIST_CONFIG.
  destruct (Z.ltb_spec (3072 + k * 4) 384); [lia |].
  destruct (Z.ltb_spec (3072 + k * 4) 512); [lia |].
  rewrite !andb_false_r. reflexivity.
Qed.

Lemma hw_dist_write h val addr : hw_dist (hw_write h val addr) = hw_dist h.
Proof. unfold hw_write. destruct (decode (hw_dist h) addr); reflexivity. Qed.

Lemma hw_enable_write h val addr :
  hw_enable (hw_write h val addr) =
  match decode (hw_dist h) addr with
  | RegEnableSet k => upd (hw_enable h) k (Z.lor (hw_enable h k) val)
  | RegEnableClear k => upd (hw_enable h) k (Z.ldiff (hw_enable h k) val)
  | RegPlain => hw_enable h
  end.
Proof. unfold hw_write. destruct (decode (hw_dist h) addr); reflexivity. Qed.

(** The bit of a one-bit mask in a register value. *)
Lemma land_bit_zero e b :
  0 <= b < 32 ->
  (Z.land (u32 e) (u32 (Z.shiftl 1 b)) =? 0) = negb (Z.testbit e b).
Proof.
  intros Hb.
  assert (Hm : u32 (Z.shiftl 1 b) = 2 ^ b).
  { rewrite Z.shiftl_1_l. unfold u32. apply Z.mod_small.
    split; [apply Z.pow_nonneg; lia | apply Z.pow_lt_mono_r; lia]. }
  rewrite Hm.
  assert (Hbit : Z.testbit (Z.land (u32 e) (2 ^ b)) b = Z.testbit e b).
  { rewrite Z.land_spec, Z.pow2_bits_true, andb_true_r by lia.
    unfold u32. apply Z.mod_pow2_bits_low. lia. }
  destruct (Z.eqb_spec (Z.land (u32 e) (2 ^ b)) 0) as [Hz | Hnz].
  - rewrite Hz, Z.bits_0 in Hbit. rewrite <- Hbit. reflexivity.
  - destruct (Z.testbit e b) eqn:He; [reflexivity |]. exfalso. apply Hnz.
    apply Z.bits_inj'. intros n Hn. rewrite Z.bits_0, Z.land_spec.
    destruct (Z.eq_dec n b) as [-> | Hne].
    + rewrite Z.land_spec in Hbit. exact Hbit.
    + rewrite Z.pow2_bits_false, andb_false_r by congruence. reflexivity.
Qed.

Lemma testbit_clear_set e b :
  0 <= b < 32 ->
  Z.testbit (Z.lor (Z.ldiff e (u32 (Z.shiftl 1 b))) (u32 (Z.shiftl 1 b))) b
  = true.
Proof.
  intros Hb.
  assert (Hm : u32 (Z.shiftl 1 b) = 2 ^ b).
  { rewrite Z.shiftl_1_l. unfold u32. apply Z.mod_small.
    split; [apply Z.pow_nonneg; lia | apply Z.pow_lt_mono_r; lia]. }
  rewrite Hm, Z.lor_spec, Z.pow2_bits_true, orb_true_r by lia. reflexivity.
Qed.

(** C5.  For a line of the distributor whose local number is at least 32
    (and below the 1024 lines that have an enable bit), setting the trigger
    type to level-high or edge-rising returns 0 and leaves the line enabled
    if it was enabled and disabled if it was disabled. *)
Theorem C5_gic_set_type_keeps_enable (w : world) (irq : vmm_host_irq)
    (gic : gic_chip_data) (type : Z) :
  gic_data w !! chip_data irq = Some gic ->
  hw_dist (hw w) = dist_base gic ->
  12 <= VA_BITS ->
  32 <= gic_irq gic irq < 1024 ->
  type = VMM_IRQ_TYPE_LEVEL_HIGH \/ type = VMM_IRQ_TYPE_EDGE_RISING ->
  let r := gic_set_type irq type w in
  fst r = Some 0 /\
  line_enabled (hw (snd r)) (gic_irq gic irq)
  = line_enabled (hw w) (gic_irq gic irq).
Proof.
  intros Hg Hdist Hva Hline Htype r. subst r.
  set (l := gic_irq gic irq) in *.
  pose proof (Z.div_mod l 32) as Hdm32. pose proof (Z.mod_pos_bound l 32) as Hm32.
  pose proof (Z.div_mod l 16) as Hdm16. pose proof (Z.mod_pos_bound l 16) as Hm16.
  assert (Hk : 0 <= l / 32 < 32) by lia.
  assert (Hc : 0 <= l / 16 < 64) by lia.
  assert (Hb : 0 <= l mod 32 < 32) by lia.
  unfold gic_set_type, vmm_host_irq_get_chip_data, bind, gic_deref.
  rewrite Hg. fold l.
  destruct (Z.ltb_spec l 16) as [Hlt | _]; [lia |].
  assert (Hty : negb (type =? VMM_IRQ_TYPE_LEVEL_HIGH)
                && negb (type =? VMM_IRQ_TYPE_EDGE_RISING) = false).
  { destruct Htype as [-> | ->]; rewrite Z.eqb_refl; simpl;
      [reflexivity | apply andb_false_r]. }
  rewrite Hty.
  assert (Heo : u32 (l / 32 * 4) = l / 32 * 4)
    by (unfold u32; apply Z.mod_small; change (2 ^ 32) with 4294967296; lia).
  assert (Hco : u32 (l / 16 * 4) = l / 16 * 4)
    by (unfold u32; apply Z.mod_small; change (2 ^ 32) with 4294967296; lia).
  rewrite Heo, Hco.
  set (mask := u32 (Z.shiftl 1 (l mod 32))).
  set (aconf := dist_base gic +@ GIC_DIST_CONFIG +@ l / 16 * 4).
  set (aset := dist_base gic +@ GIC_DIST_ENABLE_SET +@ l / 32 * 4).
  set (aclr := dist_base gic +@ GIC_DIST_ENABLE_CLEAR +@ l / 32 * 4).
  assert (Dconf : decode (hw_dist (hw w)) aconf = RegPlain)
    by (rewrite Hdist; apply decode_config; assumption).
  assert (Dset : decode (hw_dist (hw w)) aset = RegEnableSet (l / 32))
    by (rewrite Hdist; apply decode_enable_set; assumption).
  assert (Dclr : decode (hw_dist (hw w)) aclr = RegEnableClear (l / 32))
    by (rewrite Hdist; apply decode_enable_clear; assumption).
  unfold gic_read, gic_write, modify, when, ret. simpl.
  assert (Hen : hw_read (hw w) aset = u32 (hw_enable (hw w) (l / 32)))
    by (unfold hw_read; rewrite Dset; reflexivity).
  rewrite Hen. subst mask. rewrite land_bit_zero by exact Hb.
  rewrite negb_involutive. unfold line_enabled.
  destruct (Z.testbit (hw_enable (hw w) (l / 32)) (l mod 32)) eqn:Hbit; simpl.
  - split; [reflexivity |].
    rewrite hw_enable_write, !hw_dist_write, Dset.
    rewrite hw_enable_write, !hw_dist_write, Dconf.
    rewrite hw_enable_write, Dclr.
    unfold upd. rewrite !Z.eqb_refl. apply testbit_clear_set. exact Hb.
  - split; [reflexivity |].
    rewrite hw_enable_write, Dconf. exact Hbit.
Qed.

(** ** Masking and unmasking a line *)

Lemma u32_shiftl_1 b : 0 <= b < 32 -> u32 (Z.shiftl 1 b) = 2 ^ b.
Proof.
  intros Hb. rewrite Z.shiftl_1_l. unfold u32. apply Z.mod_small.
  split; [apply Z.pow_nonneg; lia | apply Z.pow_lt_mono_r; lia].
Qed.

(** With an [irq_offset] that is a multiple of 32, the global and the local
    number of a line select the same bit of an enable word. *)
Lemma gic_irq_mod32 gic irq :
  irq_offset gic mod 32 = 0 ->
  gic_irq gic irq mod 32 = num irq mod 32.
Proof.
  intros Hoff. unfold gic_irq, u32.
  rewrite Z.mod_mod_divide by (exists (2 ^ 27); reflexivity).
  rewrite Zminus_mod, Hoff, Z.sub_0_r, Z.mod_mod by lia. reflexivity.
Qed.

Lemma line_split l l' :
  l' / 32 = l / 32 -> l' mod 32 = l mod 32 -> l' = l.
Proof.
  intros Hd Hm. pose proof (Z.div_mod l 32). pose proof (Z.div_mod l' 32). lia.
Qed.

(** Unmasking a line of the modelled distributor is one write of the line's
    bit to its enable-set word: the line becomes enabled and every other
    line keeps its state. *)
Theorem gic_unmask_irq_enables (w : world) (irq : vmm_host_irq)
    (gic : gic_chip_data) :
  gic_data w !! chip_data irq = Some gic ->
  hw_dist (hw w) = dist_base gic ->
  12 <= VA_BITS ->
  irq_offset gic mod 32 = 0 ->
  0 <= gic_irq gic irq < 1024 ->
  let l := gic_irq gic irq in
  let r := gic_unmask_irq irq w in
  fst r = Some tt /\
  trace (snd r) =
    trace w ++ [EvWrite (2 ^ (l mod 32))
                  (dist_base gic +@ GIC_DIST_ENABLE_SET +@ l / 32 * 4)] /\
  forall l', line_enabled (hw (snd r)) l' =
             if l' =? l then true else line_enabled (hw w) l'.
Proof.
  intros Hg Hdist Hva Hoff Hline l r. subst r.
  pose proof (Z.div_mod l 32) as Hdm. pose proof (Z.mod_pos_bound l 32) as Hm.
  assert (Hk : 0 <= l / 32 < 32) by (subst l; lia).
  assert (Hb : 0 <= l mod 32 < 32) by lia.
  unfold gic_unmask_irq, vmm_host_irq_get_chip_data, bind, gic_deref.
  rewrite Hg. fold l. rewrite <- (gic_irq_mod32 gic irq Hoff). fold l.
  rewrite u32_shiftl_1 by exact Hb.
  assert (Heo : u32 (l / 32 * 4) = l / 32 * 4)
    by (unfold u32; apply Z.mod_small; change (2 ^ 32) with 4294967296; lia).
  rewrite Heo. unfold gic_write, modify. simpl.
  split; [reflexivity |]. split; [reflexivity |].
  intros l'. unfold line_enabled.
  rewrite hw_enable_write, Hdist, decode_enable_set by assumption.
  unfold upd.
  destruct (Z.eqb_spec (l' / 32) (l / 32)) as [Hw | Hw].
  - rewrite Z.lor_spec, Z.pow2_bits_eqb by lia.
    destruct (Z.eqb_spec (l mod 32) (l' mod 32)) as [Hbit | Hbit].
    + rewrite (line_split l l') by congruence.
      rewrite Z.eqb_refl. apply orb_true_r.
    + destruct (Z.eqb_spec l' l) as [-> | _]; [congruence |].
      rewrite Hw. apply orb_false_r.
  - destruct (Z.eqb_spec l' l) as [-> | _]; [congruence | reflexivity].
Qed.

(** Masking a line of the modelled distributor is one write of the line's
    bit to its enable-clear word: the line becomes disabled and every other
    line keeps its state. *)
Theorem gic_mask_irq_disables (w : world) (irq : vmm_host_irq)
    (gic : gic_chip_data) :
  gic_data w !! chip_data irq = Some gic ->
  hw_dist (hw w) = dist_base gic ->
  12 <= VA_BITS ->
  irq_offset gic mod 32 = 0 ->
  0 <= gic_irq gic irq < 1024 ->
  let l := gic_irq gic irq in
  let r := gic_mask_irq irq w in
  fst r = Some tt /\
  trace (snd r) =
    trace w ++ [EvWrite (2 ^ (l mod 32))
                  (dist_base gic +@ GIC_DIST_ENABLE_CLEAR +@ l / 32 * 4)] /\
  forall l', line_enabled (hw (snd r)) l' =
             if l' =? l then false else line_enabled (hw w) l'.
Proof.
  intros Hg Hdist Hva Hoff Hline l r. subst r.
  pose proof (Z.div_mod l 32) as Hdm. pose proof (Z.mod_pos_bound l 32) as Hm.
  assert (Hk : 0 <= l / 32 < 32) by (subst l; lia).
  assert (Hb : 0 <= l mod 32 < 32) by lia.
  unfold gic_mask_irq, vmm_host_irq_get_chip_data, bind, gic_deref.
  rewrite Hg. fold l. rewrite <- (gic_irq_mod32 gic irq Hoff). fold l.
  rewrite u32_shiftl_1 by exact Hb.
  assert (Heo : u32 (l / 32 * 4) = l / 32 * 4)
    by (unfold u32; apply Z.mod_small; change (2 ^ 32) with 4294967296; lia).
  rewrite Heo. unfold gic_write, modify. simpl.
  split; [reflexivity |]. split; [reflexivity |].
  intros l'. unfold line_enabled.
  rewrite hw_enable_write, Hdist, decode_enable_clear by assumption.
  unfold upd.
  destruct (Z.eqb_spec (l' / 32) (l / 32)) as [Hw | Hw].
  - rewrite Z.ldiff_spec, Z.pow2_bits_eqb by lia.
    destruct (Z.eqb_spec (l mod 32) (l' mod 32)) as [Hbit | Hbit].
    + rewrite (line_split l l') by congruence.
      rewrite Z.eqb_refl. apply andb_false_r.
    + destruct (Z.eqb_spec l' l) as [-> | _]; [congruence |].
      rewrite Hw. apply andb_true_r.
  - destruct (Z.eqb_spec l' l) as [-> | _]; [congruence | reflexivity].
Qed.

(** ** Trigger configuration and routing *)

Lemma testbit_u32_low x n : 0 <= n < 32 -> Z.testbit (u32 x) n = Z.testbit x n.
Proof. intros Hn. unfold u32. apply Z.mod_pow2_bits_low. lia. Qed.

Lemma testbit_u32_lnot x n :
  0 <= n < 32 -> Z.testbit (u32 (Z.lnot x)) n = negb (Z.testbit x n).
Proof.
  intros Hn. rewrite testbit_u32_low by exact Hn. apply Z.lnot_spec. lia.
Qed.

Lemma u32_shiftl_2 s : 0 <= s <= 30 -> u32 (Z.shiftl 2 s) = 2 ^ (s + 1).
Proof.
  intros Hs. rewrite Z.shiftl_mul_pow2 by lia.
  replace (2 * 2 ^ s) with (2 ^ (s + 1))
    by (rewrite Z.pow_add_r by lia; change (2 ^ 1) with 2; lia).
  unfold u32. apply Z.mod_small.
  split; [apply Z.pow_nonneg; lia | apply Z.pow_lt_mono_r; lia].
Qed.

(** A trigger type accepted for a line with local number in [16, 1024)
    rewrites the line's configuration word so that the upper bit of the
    line's 2-bit field is clear for level-high and set for edge-rising; every
    other bit of the word is as it was. *)
Theorem gic_set_type_config_bit (w : world) (irq : vmm_host_irq)
    (gic : gic_chip_data) (type : Z) :
  gic_data w !! chip_data irq = Some gic ->
  hw_dist (hw w) = dist_base gic ->
  12 <= VA_BITS ->
  16 <= gic_irq gic irq < 1024 ->
  type = VMM_IRQ_TYPE_LEVEL_HIGH \/ type = VMM_IRQ_TYPE_EDGE_RISING ->
  let l := gic_irq gic irq in
  let conf := dist_base gic +@ GIC_DIST_CONFIG +@ l / 16 * 4 in
  let r := gic_set_type irq type w in
  fst r = Some 0 /\
  forall n, 0 <= n < 32 ->
    Z.testbit (hw_read (hw (snd r)) conf) n =
    if n =? 2 * (l mod 16) + 1
    then negb (type =? VMM_IRQ_TYPE_LEVEL_HIGH)
    else Z.testbit (hw_read (hw w) conf) n.
Proof.
  intros Hg Hdist Hva Hline Htype l conf r. subst r.
  pose proof (Z.div_mod l 32) as Hdm32. pose proof (Z.mod_pos_bound l 32) as Hm32.
  pose proof (Z.div_mod l 16) as Hdm16. pose proof (Z.mod_pos_bound l 16) as Hm16.
  assert (Hk : 0 <= l / 32 < 32) by (subst l; lia).
  assert (Hc : 0 <= l / 16 < 64) by (subst l; lia).
  unfold gic_set_type, vmm_host_irq_get_chip_data, bind, gic_deref.
  rewrite Hg. fold l.
  destruct (Z.ltb_spec l 16) as [Hlt | _]; [subst l; lia |].
  assert (Hty : negb (type =? VMM_IRQ_TYPE_LEVEL_HIGH)
                && negb (type =? VMM_IRQ_TYPE_EDGE_RISING) = false).
  { destruct Htype as [-> | ->]; rewrite Z.eqb_refl; simpl;
      [reflexivity | apply andb_false_r]. }
  rewrite Hty.
  assert (Heo : u32 (l / 32 * 4) = l / 32 * 4)
    by (unfold u32; apply Z.mod_small; change (2 ^ 32) with 4294967296; lia).
  assert (Hco : u32 (l / 16 * 4) = l / 16 * 4)
    by (unfold u32; apply Z.mod_small; change (2 ^ 32) with 4294967296; lia).
  rewrite Heo, Hco. fold conf.
  rewrite u32_shiftl_2 by lia.
  set (cm := 2 ^ (l mod 16 * 2 + 1)).
  set (aset := dist_base gic +@ GIC_DIST_ENABLE_SET +@ l / 32 * 4).
  set (aclr := dist_base gic +@ GIC_DIST_ENABLE_CLEAR +@ l / 32 * 4).
  set (mask := u32 (Z.shiftl 1 (l mod 32))).
  set (val := if type =? VMM_IRQ_TYPE_LEVEL_HIGH
              then Z.land (hw_read (hw w) conf) (u32 (Z.lnot cm))
              else if type =? VMM_IRQ_TYPE_EDGE_RISING
                   then Z.lor (hw_read (hw w) conf) cm
                   else hw_read (hw w) conf).
  assert (Dconf : decode (hw_dist (hw w)) conf = RegPlain)
    by (rewrite Hdist; apply decode_config; assumption).
  assert (Dset : decode (hw_dist (hw w)) aset = RegEnableSet (l / 32))
    by (rewrite Hdist; apply decode_enable_set; assumption).
  assert (Dclr : decode (hw_dist (hw w)) aclr = RegEnableClear (l / 32))
    by (rewrite Hdist; apply decode_enable_clear; assumption).
  assert (Hval : forall n, 0 <= n < 32 ->
            Z.testbit val n =
            if n =? 2 * (l mod 16) + 1
            then negb (type =? VMM_IRQ_TYPE_LEVEL_HIGH)
            else Z.testbit (hw_read (hw w) conf) n).
  { intros n Hn. subst val cm.
    replace (l mod 16 * 2 + 1) with (2 * (l mod 16) + 1) by lia.
    destruct (Z.eqb_spec type VMM_IRQ_TYPE_LEVEL_HIGH) as [Hlh | Hlh]; simpl.
    - rewrite Z.land_spec, testbit_u32_lnot, Z.pow2_bits_eqb by lia.
      rewrite (Z.eqb_sym (2 * (l mod 16) + 1) n).
      destruct (n =? 2 * (l mod 16) + 1);
        [apply andb_false_r | apply andb_true_r].
    - destruct Htype as [-> | ->]; [contradiction |].
      rewrite Z.eqb_refl, Z.lor_spec, Z.pow2_bits_eqb by lia.
      rewrite (Z.eqb_sym (2 * (l mod 16) + 1) n).
      destruct (n =? 2 * (l mod 16) + 1);
        [apply orb_true_r | apply orb_false_r]. }
  assert (Hmem : forall h, hw_dist h = hw_dist (hw w) ->
            hw_read (hw_write h val conf) conf = u32 val).
  { intros h Hh. unfold hw_read, hw_write. rewrite Hh, Dconf. simpl.
    rewrite Dconf. unfold upd. rewrite Z.eqb_refl. reflexivity. }
  assert (Hset : forall h, hw_dist h = hw_dist (hw w) ->
            hw_read (hw_write h mask aset) conf = hw_read h conf).
  { intros h Hh. unfold hw_read, hw_write. rewrite Hh, Dset. simpl.
    rewrite Dconf. reflexivity. }
  unfold gic_read, gic_write, modify, when, ret. simpl.
  destruct (negb (Z.land (hw_read (hw w) aset) mask =? 0)); simpl;
    (split; [reflexivity |]); intros n Hn.
  - rewrite Hset, Hmem, testbit_u32_low, Hval
      by (rewrite ?hw_dist_write; auto). reflexivity.
  - rewrite Hmem, testbit_u32_low, Hval by auto. reflexivity.
Qed.

Lemma land_lnot3 x : Z.land x (Z.lnot 3) = x - x mod 4.
Proof.
  change 3 with (Z.ones 2) at 1.
  rewrite <- Z.ldiff_land, Z.ldiff_ones_r by lia.
  rewrite Z.shiftr_div_pow2, Z.shiftl_mul_pow2 by lia.
  change (2 ^ 2) with 4. pose proof (Z.div_mod x 4). lia.
Qed.

(** An affinity whose first target core [cpu] is below 8 reads the target
    word of the line (at the line's local number rounded down to a multiple
    of 4) and writes it back with the byte selected by the line's global
    number replaced by the single bit of [cpu]; the other three bytes are
    written back as read. *)
Theorem gic_set_affinity_target_byte (w : world) (irq : vmm_host_irq)
    (gic : gic_chip_data) (mask_val : Z) (force : bool) :
  gic_data w !! chip_data irq = Some gic ->
  u32 (vmm_cpumask_first mask_val) < 8 ->
  let cpu := u32 (vmm_cpumask_first mask_val) in
  let l := gic_irq gic irq in
  let shift := num irq mod 4 * 8 in
  let reg := dist_base gic +@ GIC_DIST_TARGET +@ (l - l mod 4) in
  let r := gic_set_affinity irq mask_val force w in
  fst r = Some 0 /\
  exists val,
    trace (snd r) = trace w ++ [EvRead reg; EvWrite val reg] /\
    forall n, 0 <= n < 32 ->
      Z.testbit val n =
      if (shift <=? n) && (n <? shift + 8) then n =? cpu + shift
      else Z.testbit (hw_read (hw w) reg) n.
Proof.
  intros Hg Hcpu cpu l shift reg r. subst r.
  pose proof (u32_range (vmm_cpumask_first mask_val)) as Hcr. fold cpu in Hcr, Hcpu.
  pose proof (Z.mod_pos_bound (num irq) 4) as Hm4.
  assert (Hs : 0 <= shift <= 24) by (subst shift; lia).
  unfold gic_set_affinity. fold cpu.
  destruct (Z.leb_spec 8 cpu) as [Hge | _]; [lia |].
  unfold vmm_host_irq_get_chip_data, bind, gic_deref. rewrite Hg. fold l.
  rewrite land_u32_mask by apply u32_range. rewrite land_lnot3. fold reg.
  assert (Hsh : u32 (num irq mod 4 * 8) = shift)
    by (unfold u32; apply Z.mod_small; change (2 ^ 32) with 4294967296;
        subst shift; lia).
  rewrite Hsh. unfold gic_read, gic_write, modify. simpl.
  split; [reflexivity |]. eexists. split.
  { rewrite <- app_assoc. reflexivity. }
  intros n Hn.
  assert (Hmask : u32 (Z.shiftl 255 shift) = Z.shiftl 255 shift).
  { unfold u32. apply Z.mod_small. rewrite Z.shiftl_mul_pow2 by lia.
    assert (0 < 2 ^ shift) by (apply Z.pow_pos_nonneg; lia).
    assert (2 ^ shift <= 2 ^ 24) by (apply Z.pow_le_mono_r; lia).
    change (2 ^ 24) with 16777216 in *. change (2 ^ 32) with 4294967296. lia. }
  rewrite Hmask, u32_shiftl_1 by lia.
  rewrite Z.lor_spec, Z.land_spec, testbit_u32_lnot by exact Hn.
  rewrite Z.shiftl_spec by lia.
  change 255 with (Z.ones 8). rewrite Z.testbit_ones by lia.
  rewrite Z.pow2_bits_eqb by lia.
  rewrite (Z.eqb_sym (cpu + shift) n).
  destruct (Z.leb_spec shift n), (Z.ltb_spec n (shift + 8)),
    (Z.leb_spec 0 (n - shift)), (Z.ltb_spec (n - shift) 8),
    (Z.eqb_spec n (cpu + shift)); simpl; try lia;
    rewrite ?andb_false_r, ?andb_true_r, ?orb_false_r; reflexivity.
Qed.

(** ** Initialisation: the enable state of the distributor *)

Lemma va_offset1 dist c :
  0 <= c < 2 ^ VA_BITS -> (dist +@ c - dist) mod 2 ^ VA_BITS = c.
Proof.
  intros Hr. unfold va_add. rewrite Zminus_mod_idemp_l.
  replace (dist + c - dist) with c by lia. apply Z.mod_small. exact Hr.
Qed.

Lemma decode_plain_at dist addr off :
  (addr - dist) mod 2 ^ VA_BITS = off ->
  off < GIC_DIST_ENABLE_SET \/ GIC_DIST_PENDING_SET <= off ->
  decode dist addr = RegPlain.
Proof.
  intros Hoff Hout. unfold decode. rewrite Hoff.
  unfold GIC_DIST_ENABLE_SET, GIC_DIST_ENABLE_CLEAR, GIC_DIST_PENDING_SET in *.
  destruct (Z.leb_spec 256 off), (Z.ltb_spec off 384), (Z.leb_spec 384 off),
    (Z.ltb_spec off 512); simpl; try reflexivity; lia.
Qed.

Lemma decode_plain1 dist c :
  12 <= VA_BITS -> 0 <= c < 256 \/ 512 <= c < 4096 ->
  decode dist (dist +@ c) = RegPlain.
Proof.
  intros Hva Hc. pose proof (va_window Hva).
  apply (decode_plain_at _ _ c); [apply va_offset1; lia |].
  unfold GIC_DIST_ENABLE_SET, GIC_DIST_PENDING_SET. lia.
Qed.

Lemma decode_plain2 dist c f :
  12 <= VA_BITS -> 512 <= c + f < 4096 ->
  decode dist (dist +@ c +@ f) = RegPlain.
Proof.
  intros Hva Hc. pose proof (va_window Hva).
  apply (decode_plain_at _ _ (c + f)); [apply va_offset; lia |].
  unfold GIC_DIST_PENDING_SET. lia.
Qed.

Lemma decode_enable_set0 dist :
  12 <= VA_BITS -> decode dist (dist +@ GIC_DIST_ENABLE_SET) = RegEnableSet 0.
Proof.
  intros Hva. pose proof (va_window Hva). unfold decode.
  rewrite va_offset1 by (unfold GIC_DIST_ENABLE_SET; lia). reflexivity.
Qed.

Lemma decode_enable_clear0 dist :
  12 <= VA_BITS ->
  decode dist (dist +@ GIC_DIST_ENABLE_CLEAR) = RegEnableClear 0.
Proof.
  intros Hva. pose proof (va_window Hva). unfold decode.
  rewrite va_offset1 by (unfold GIC_DIST_ENABLE_CLEAR; lia). reflexivity.
Qed.

(** The index of an iteration that a loop runs is below the loop's bound. *)
Lemma for_loop_index lo hi step (k : nat) :
  0 < step ->
  (k < Z.to_nat ((hi - lo + step - 1) / step))%nat ->
  lo + Z.of_nat k * step < hi.
Proof.
  intros Hstep Hk.
  assert (Hq : Z.of_nat k + 1 <= (hi - lo + step - 1) / step) by lia.
  pose proof (Z.mul_div_le (hi - lo + step - 1) step Hstep) as Hle.
  nia.
Qed.

(** A write to a plain register leaves the enable state as it is. *)
Lemma plain_write_keeps_enable D F G val addr w :
  decode D addr = RegPlain ->
  hw_dist (hw w) = D /\ hw_enable (hw w) = F /\ gic_data w = G ->
  returns (gic_write val addr) w
    (fun _ w' => hw_dist (hw w') = D /\ hw_enable (hw w') = F /\
                 gic_data w' = G).
Proof.
  intros Hdec (HD & HF & HG). apply returns_gic_write. simpl.
  rewrite hw_dist_write, hw_enable_write, HD, Hdec. auto.
Qed.

Lemma plain_loop_keeps_enable D F G lo hi step (val addr : Z -> Z) w :
  0 < step ->
  (forall i, lo <= i < hi -> decode D (addr i) = RegPlain) ->
  hw_dist (hw w) = D /\ hw_enable (hw w) = F /\ gic_data w = G ->
  returns (for_loop lo hi step (fun i => gic_write (val i) (addr i))) w
    (fun _ w' => hw_dist (hw w') = D /\ hw_enable (hw w') = F /\
                 gic_data w' = G).
Proof.
  intros Hstep Hdec Hw. unfold for_loop.
  apply (returns_for_steps
           (fun _ w' => hw_dist (hw w') = D /\ hw_enable (hw w') = F /\
                        gic_data w' = G));
    [exact Hw |].
  intros k w' Hk Hw'. apply plain_write_keeps_enable; [| exact Hw'].
  apply Hdec. pose proof (for_loop_index lo hi step k Hstep Hk). nia.
Qed.

(** [gic_cpu_init] on the modelled distributor, with the two CPU-interface
    registers it writes outside the distributor's enable windows: the
    software-generated lines 0-15 end up enabled, the private peripheral
    lines 16-31 disabled, and every other line keeps its state. *)
Theorem gic_cpu_init_banked_lines (w : world) (gic : nat) (g : gic_chip_data) :
  gic_data w !! gic = Some g ->
  hw_dist (hw w) = dist_base g ->
  12 <= VA_BITS ->
  decode (dist_base g) (cpu_base g +@ GIC_CPU_PRIMASK) = RegPlain ->
  decode (dist_base g) (cpu_base g +@ GIC_CPU_CTRL) = RegPlain ->
  let r := gic_cpu_init gic w in
  fst r = Some tt /\
  forall l, line_enabled (hw (snd r)) l =
            if (0 <=? l) && (l <? 16) then true
            else if (16 <=? l) && (l <? 32) then false
            else line_enabled (hw w) l.
Proof.
  intros Hg Hdist Hva Hpm Hctl r.
  set (F := upd (upd (hw_enable (hw w)) 0
                   (Z.ldiff (hw_enable (hw w) 0) 0xffff0000)) 0
              (Z.lor (Z.ldiff (hw_enable (hw w) 0) 0xffff0000) 0x0000ffff)).
  assert (Hrun : returns (gic_cpu_init gic) w
            (fun _ w' => hw_dist (hw w') = dist_base g /\
                         hw_enable (hw w') = F /\
                         gic_data w' = gic_data w)).
  { unfold gic_cpu_init.
    apply returns_bind. eapply returns_gic_deref; [exact Hg |].
    apply returns_bind, returns_gic_write.
    apply returns_bind, returns_gic_write.
    set (w2 := log _ (set_hw _ (log _ _))).
    assert (Hw2 : hw_dist (hw w2) = dist_base g /\ hw_enable (hw w2) = F /\
                  gic_data w2 = gic_data w).
    { subst w2. simpl. rewrite !hw_dist_write. split; [exact Hdist |].
      split; [| reflexivity].
      rewrite hw_enable_write, hw_dist_write, Hdist, decode_enable_set0
        by exact Hva.
      rewrite hw_enable_write, Hdist, decode_enable_clear0 by exact Hva.
      reflexivity. }
    clearbody w2.
    apply returns_bind. eapply returns_weaken.
    { apply (plain_loop_keeps_enable (dist_base g) F (gic_data w));
        [lia | | exact Hw2].
      intros i Hi. apply decode_plain2; [exact Hva |].
      unfold GIC_DIST_PRI.
      assert (0 <= i * 4 / 4 < 32) by (rewrite Z.div_mul by lia; lia). lia. }
    intros [] w3 Hw3.
    apply returns_bind. eapply returns_weaken;
      [apply (plain_write_keeps_enable (dist_base g) F (gic_data w));
       eassumption |].
    intros [] w4 Hw4.
    destruct (eoimode g);
      apply (plain_write_keeps_enable (dist_base g) F (gic_data w));
      assumption. }
  destruct (returns_run _ _ _ Hrun) as ([] & Hres & _ & HF & _).
  fold r in Hres, HF. split; [exact Hres |].
  intros l. unfold line_enabled. rewrite HF. subst F. unfold upd.
  pose proof (Z.div_mod l 32) as Hdm. pose proof (Z.mod_pos_bound l 32) as Hm.
  destruct (Z.eqb_spec (l / 32) 0) as [Hw0 | Hw0].
  - assert (Hl : l mod 32 = l) by lia. rewrite Hl.
    rewrite Z.lor_spec, Z.ldiff_spec.
    change 0xffff0000 with (Z.shiftl (Z.ones 16) 16).
    change 0x0000ffff with (Z.ones 16).
    rewrite Z.shiftl_spec, !Z.testbit_ones by lia.
    destruct (Z.leb_spec 0 l), (Z.ltb_spec l 16), (Z.leb_spec 16 l),
      (Z.ltb_spec l 32), (Z.leb_spec 0 (l - 16)), (Z.ltb_spec (l - 16) 16);
      simpl; try lia; rewrite ?andb_false_r, ?orb_true_r; reflexivity.
  - destruct (Z.leb_spec 0 l), (Z.ltb_spec l 16), (Z.leb_spec 16 l),
      (Z.ltb_spec l 32); simpl; try lia; reflexivity.
Qed.

Lemma u32_small x : 0 <= x < 2 ^ 32 -> u32 x = x.
Proof. intros Hx. unfold u32. apply Z.mod_small. exact Hx. Qed.

Lemma hw_mem_write_plain h val addr :
  decode (hw_dist h) addr = RegPlain ->
  hw_mem (hw_write h val addr) = upd (hw_mem h) addr val.
Proof. intros Hdec. unfold hw_write. rewrite Hdec. reflexivity. Qed.

(** The enable-clear loop of [gic_dist_init] (lines 298-301). *)
Lemma enable_clear_loop_spec D E G max_irq w :
  12 <= VA_BITS -> 0 <= max_irq <= 1020 ->
  hw_dist (hw w) = D /\ hw_enable (hw w) = E /\ gic_data w = G ->
  returns
    (for_loop 0 max_irq 32 (fun i =>
       gic_write 0xffffffff
         (D +@ GIC_DIST_ENABLE_CLEAR +@ u32 (u32 (i * 4) / 32)))) w
    (fun _ w' =>
       hw_dist (hw w') = D /\ gic_data w' = G /\
       forall j, hw_enable (hw w') j =
         if (0 <=? j) && (j <? (max_irq + 31) / 32)
         then Z.ldiff (E j) 0xffffffff else E j).
Proof.
  intros Hva Hmax (HD & HE & HG). unfold for_loop.
  set (n := Z.to_nat ((max_irq - 0 + 32 - 1) / 32)).
  assert (Hn : Z.of_nat n = (max_irq + 31) / 32).
  { subst n. replace (max_irq - 0 + 32 - 1) with (max_irq + 31) by lia.
    apply Z2Nat.id. apply Z.div_pos; lia. }
  rewrite <- Hn.
  apply (returns_for_steps (fun k w' =>
    hw_dist (hw w') = D /\ gic_data w' = G /\
    forall j, hw_enable (hw w') j =
      if (0 <=? j) && (j <? Z.of_nat k)
      then Z.ldiff (E j) 0xffffffff else E j)).
  - split; [exact HD |]. split; [exact HG |]. intros j. rewrite HE.
    destruct (Z.leb_spec 0 j), (Z.ltb_spec j (Z.of_nat 0));
      simpl; try reflexivity; lia.
  - intros k w' Hk (HD' & HG' & Hen).
    pose proof (for_loop_index 0 max_irq 32 k ltac:(lia) Hk) as Hi.
    assert (Hoff : u32 (u32 ((0 + Z.of_nat k * 32) * 4) / 32) = Z.of_nat k * 4).
    { replace ((0 + Z.of_nat k * 32) * 4) with (Z.of_nat k * 4 * 32) by lia.
      rewrite (u32_small (Z.of_nat k * 4 * 32))
        by (change (2 ^ 32) with 4294967296; lia).
      rewrite Z.div_mul by lia.
      apply u32_small. change (2 ^ 32) with 4294967296. lia. }
    rewrite Hoff. apply returns_gic_write. simpl.
    rewrite hw_dist_write, hw_enable_write, HD', decode_enable_clear
      by (try exact Hva; lia).
    split; [reflexivity |]. split; [exact HG' |].
    intros j. unfold upd.
    destruct (Z.eqb_spec j (Z.of_nat k)) as [-> | Hne].
    + rewrite Hen.
      destruct (Z.leb_spec 0 (Z.of_nat k)),
        (Z.ltb_spec (Z.of_nat k) (Z.of_nat k)),
        (Z.ltb_spec (Z.of_nat k) (Z.of_nat (S k))); simpl;
        try reflexivity; lia.
    + rewrite Hen.
      destruct (Z.leb_spec 0 j), (Z.ltb_spec j (Z.of_nat k)),
        (Z.ltb_spec j (Z.of_nat (S k))); simpl; try reflexivity; lia.
Qed.

(** [gic_dist_init] on the modelled distributor leaves every line the
    distributor reports disabled and ends with distribution switched on. *)
Theorem gic_dist_init_masks_lines (w : world) (gic : nat) (g : gic_chip_data)
    (irq_start : Z) :
  gic_data w !! gic = Some g ->
  hw_dist (hw w) = dist_base g ->
  12 <= VA_BITS ->
  let max_irq := dist_max_irq (hw w) (dist_base g) in
  let r := gic_dist_init gic irq_start w in
  fst r = Some tt /\
  (forall l, 0 <= l < max_irq -> line_enabled (hw (snd r)) l = false) /\
  hw_read (hw (snd r)) (dist_base g +@ GIC_DIST_CTRL) = 1.
Proof.
  intros Hg Hdist Hva max_irq r.
  pose proof (line_count_range
    (hw_read (hw_write (hw w) 0 (dist_base g +@ GIC_DIST_CTRL))
       (dist_base g +@ GIC_DIST_CTR))) as Hmax.
  fold (dist_max_irq (hw w) (dist_base g)) in Hmax. fold max_irq in Hmax.
  set (D := dist_base g) in *. set (E := hw_enable (hw w)).
  assert (Dctrl : decode D (D +@ GIC_DIST_CTRL) = RegPlain)
    by (apply decode_plain1; [exact Hva | unfold GIC_DIST_CTRL; lia]).
  assert (Hrun : returns (gic_dist_init gic irq_start) w
    (fun _ w' =>
       hw_read (hw w') (D +@ GIC_DIST_CTRL) = 1 /\
       forall j, hw_enable (hw w') j =
         if (0 <=? j) && (j <? (max_irq + 31) / 32)
         then Z.ldiff (E j) 0xffffffff else E j)).
  { unfold gic_dist_init.
    apply returns_bind. eapply returns_gic_deref; [exact Hg |]. fold D.
    apply returns_bind, returns_gic_write.
    apply returns_bind, returns_gic_read.
    change (hw (log (EvWrite 0 (D +@ GIC_DIST_CTRL))
                  (set_hw (hw_write (hw w) 0 (D +@ GIC_DIST_CTRL)) w)))
      with (hw_write (hw w) 0 (D +@ GIC_DIST_CTRL)).
    set (w1 := log _ (log _ _)).
    assert (Hw1 : hw_dist (hw w1) = D /\ hw_enable (hw w1) = E /\
                  gic_data w1 = gic_data w).
    { subst w1. simpl.
      rewrite hw_dist_write, hw_enable_write, Hdist, Dctrl. auto. }
    fold (line_count (hw_read (hw_write (hw w) 0 (D +@ GIC_DIST_CTRL))
                        (D +@ GIC_DIST_CTR))).
    fold (dist_max_irq (hw w) D). fold max_irq.
    clearbody w1.
    apply returns_bind. eapply returns_weaken.
    { apply (plain_loop_keeps_enable D E (gic_data w)); [lia | | exact Hw1].
      intros i Hi. apply decode_plain2; [exact Hva |].
      rewrite (u32_small (i * 4)) by (change (2 ^ 32) with 4294967296; lia).
      assert (0 <= i * 4 / 16 < 256)
        by (split; [apply Z.div_pos; lia
                   | apply Z.div_lt_upper_bound; lia]).
      rewrite u32_small by (change (2 ^ 32) with 4294967296; lia).
      unfold GIC_DIST_CONFIG. lia. }
    intros [] w2 Hw2.
    apply returns_bind. eapply returns_weaken.
    { apply (plain_loop_keeps_enable D E (gic_data w)); [lia | | exact Hw2].
      intros i Hi. apply decode_plain2; [exact Hva |].
      rewrite (u32_small (i * 4)) by (change (2 ^ 32) with 4294967296; lia).
      rewrite Z.div_mul by lia.
      rewrite u32_small by (change (2 ^ 32) with 4294967296; lia).
      unfold GIC_DIST_TARGET. lia. }
    intros [] w3 Hw3.
    apply returns_bind. eapply returns_weaken.
    { apply (plain_loop_keeps_enable D E (gic_data w)); [lia | | exact Hw3].
      intros i Hi. apply decode_plain2; [exact Hva |].
      rewrite (u32_small (i * 4)) by (change (2 ^ 32) with 4294967296; lia).
      rewrite Z.div_mul by lia.
      rewrite u32_small by (change (2 ^ 32) with 4294967296; lia).
      unfold GIC_DIST_PRI. lia. }
    intros [] w4 Hw4.
    apply returns_bind. eapply returns_weaken;
      [apply (enable_clear_loop_spec D E (gic_data w));
       [exact Hva | exact Hmax | exact Hw4] |].
    intros [] w5 (HD5 & HG5 & Hen5).
    apply returns_bind. eapply returns_gic_deref; [rewrite HG5; exact Hg |].
    apply returns_bind. eapply returns_weaken.
    { apply (gic_dist_irq_limit_spec g max_irq w5 (host_irqs w5)).
      split; [apply frame_refl | reflexivity]. }
    intros lim w6 (_ & Hhw6 & _ & _).
    apply returns_bind. eapply returns_weaken; [apply register_loop_spec |].
    intros [] w7 (_ & Hhw7 & _).
    apply returns_gic_write. simpl. rewrite Hhw7, Hhw6. split.
    - unfold hw_read. rewrite hw_dist_write, HD5, Dctrl.
      rewrite hw_mem_write_plain by (rewrite HD5; exact Dctrl).
      unfold upd. rewrite Z.eqb_refl. reflexivity.
    - intros j. rewrite hw_enable_write, HD5, Dctrl. apply Hen5. }
  destruct (returns_run _ _ _ Hrun) as ([] & Hres & Hctl & Hen).
  fold r in Hres, Hctl, Hen.
  split; [exact Hres |]. split; [| exact Hctl].
  intros l Hl. unfold line_enabled. rewrite Hen.
  pose proof (Z.div_mod l 32) as Hdm. pose proof (Z.mod_pos_bound l 32) as Hm.
  pose proof (Z.div_mod (max_irq + 31) 32) as Hdm'.
  pose proof (Z.mod_pos_bound (max_irq + 31) 32) as Hm'.
  destruct (Z.leb_spec 0 (l / 32)); [| lia].
  destruct (Z.ltb_spec (l / 32) ((max_irq + 31) / 32)); [| lia]. simpl.
  rewrite Z.ldiff_spec. change 0xffffffff with (Z.ones 32).
  rewrite Z.testbit_ones by lia.
  destruct (Z.leb_spec 0 (l mod 32)), (Z.ltb_spec (l mod 32) 32);
    simpl; try lia; apply andb_false_r.
Qed.

(** ** Bootstrap *)




(** A controller id outside the table stops the kernel in [BUG()] before
    anything is done: [gic_init_bases], [gic_secondary_init] and
    [gic_cascade_irq] touch no register, change no table and register no
    handler. *)
Theorem controller_id_out_of_range (w : world) (gic_nr irq : Z)
    (eoimode0 : bool) (irq_start cpu_base0 cpu2_base0 dist_base0 : Z) :
  GIC_MAX_NR <= gic_nr ->
  gic_init_bases gic_nr eoimode0 irq_start cpu_base0 cpu2_base0 dist_base0 w
    = (None, w) /\
  gic_secondary_init gic_nr w = (None, w) /\
  gic_cascade_irq gic_nr irq w = (None, w).
Proof.
  intros Hnr.
  unfold gic_init_bases, gic_secondary_init, gic_cascade_irq, bind.
  destruct (Z.leb_spec GIC_MAX_NR gic_nr); [| lia].
  repeat split.
Qed.

(** [gic_cascade_irq] for a controller of the table makes exactly one call
    into the host framework, the registration of the cascade handler for
    the given line with the controller as its device; it returns if the
    framework accepts the registration and stops in [BUG()] otherwise. *)
Theorem gic_cascade_irq_outcomes (w : world) (gic_nr irq : Z) :
  0 <= gic_nr < GIC_MAX_NR ->
  let r := gic_cascade_irq gic_nr irq w in
  snd r = log (EvIrqRegister irq "GIC-CHILD" gic_handle_cascade_irq_fn
                 (Z.to_nat gic_nr)) w /\
  (vmm_host_irq_register_rc irq = 0 -> fst r = Some tt) /\
  (vmm_host_irq_register_rc irq <> 0 -> fst r = None).
Proof.
  intros Hnr r. subst r.
  unfold gic_cascade_irq, vmm_host_irq_register, bind, emit, modify.
  destruct (Z.leb_spec GIC_MAX_NR gic_nr); [lia |]. simpl.
  destruct (Z.eqb_spec (vmm_host_irq_register_rc irq) 0); simpl;
    repeat split; intros; congruence.
Qed.

(** On the boot CPU, [gic_init] and [gic_eoimode_init] of a missing node
    return [VMM_ENODEV] after a diagnostic: no register is accessed and no
    controller is created or counted. *)
Theorem gic_init_no_node (w : world) :
  vmm_smp_is_bootcpu = true ->
  gic_init None w = (Some VMM_ENODEV, log EvWarn w) /\
  gic_eoimode_init None w = (Some VMM_ENODEV, log EvWarn w).
Proof.
  intros Hboot. unfold gic_init, gic_eoimode_init. rewrite Hboot.
  split; reflexivity.
Qed.




(** ** Runtime: composition *)

(** Acknowledge, then end of interrupt: the number that the
    active-interrupt reader returns for an acknowledge value [v] up to 1020,
    handed back to [gic_eoi_irq] as a line of controller 0, makes it write
    [v] to the EOI register (and to the deactivate register in split mode),
    whatever the controller's [irq_offset]. *)
Theorem gic_active_irq_then_eoi (w : world) (gic0 : gic_chip_data)
    (cpu_irq_nr v : Z) :
  gic_data w !! 0%nat = Some gic0 ->
  Z.land (hw_read (hw w) (cpu_base gic0 +@ GIC_CPU_INTACK)) 0x3FF = v ->
  v <= 1020 ->
  let r := (let! n := gic_active_irq cpu_irq_nr in gic_eoi_irq (mk_irq n 0)) w in
  fst r = Some tt /\
  trace (snd r) =
    trace w ++
    EvRead (cpu_base gic0 +@ GIC_CPU_INTACK) ::
    EvWrite v (cpu_base gic0 +@ GIC_CPU_EOI) ::
    (if eoimode gic0
     then [EvWrite v (cpu2_base gic0 +@ GIC_CPU2_DIR)] else []).
Proof.
  intros Hg Hv Hle r. subst r.
  pose proof (land_3FF_range
    (hw_read (hw w) (cpu_base gic0 +@ GIC_CPU_INTACK))) as Hr.
  rewrite Hv in Hr.
  unfold gic_active_irq, gic_eoi_irq, vmm_host_irq_get_chip_data, bind,
    gic_deref, gic_read, ret.
  rewrite Hg. simpl. rewrite Hv.
  destruct (Z.ltb_spec v 1021); [| lia]. simpl. rewrite Hg.
  assert (Hback : gic_irq gic0 (mk_irq (u32 (v + irq_offset gic0)) 0) = v).
  { unfold gic_irq, u32. simpl.
    rewrite Zminus_mod_idemp_l.
    replace (v + irq_offset gic0 - irq_offset gic0) with v by lia.
    apply Z.mod_small. change (2 ^ 32) with 4294967296. lia. }
  rewrite Hback. unfold gic_write, modify, when. simpl.
  destruct (eoimode gic0); simpl; rewrite <- !app_assoc; auto.
Qed.

(** The value [gic_raise] writes for a line number and a CPU mask below
    [2^16]: the mask in bits 16 and up, the line's global number below. *)
Theorem gic_raise_value_layout (w : world) (irq : vmm_host_irq) (mask : Z)
    (gic0 : gic_chip_data) :
  gic_data w !! 0%nat = Some gic0 ->
  0 <= num irq < 2 ^ 16 ->
  0 <= mask < 2 ^ 16 ->
  trace (snd (gic_raise irq mask w)) =
    trace w ++
    [EvWmb;
     EvWrite (mask * 2 ^ 16 + num irq) (dist_base gic0 +@ GIC_DIST_SOFTINT)].
Proof.
  intros Hg Hnum Hmask.
  unfold gic_raise, arch_wmb, emit, modify, bind, gic_deref. simpl.
  rewrite Hg. unfold gic_write, modify. simpl.
  rewrite <- app_assoc. simpl.
  assert (Hval : u32 (Z.lor (Z.shiftl mask 16) (num irq))
                 = mask * 2 ^ 16 + num irq).
  { assert (Hdisj : Z.land (Z.shiftl mask 16) (num irq) = 0).
    { apply Z.bits_inj'. intros n Hn. rewrite Z.bits_0, Z.land_spec.
      destruct (Z.ltb_spec n 16) as [Hlo | Hhi].
      - rewrite Z.shiftl_spec_low by exact Hlo. reflexivity.
      - replace (num irq) with (num irq mod 2 ^ 16)
          by (apply Z.mod_small; exact Hnum).
        rewrite Z.mod_pow2_bits_high by lia. apply andb_false_r. }
    pose proof (Z.add_lor_land (Z.shiftl mask 16) (num irq)) as Hadd.
    rewrite Hdisj, Z.add_0_r, Z.shiftl_mul_pow2 in Hadd by lia.
    rewrite Z.shiftl_mul_pow2 by lia. rewrite Hadd.
    apply u32_small. change (2 ^ 16) with 65536 in *.
    change (2 ^ 32) with 4294967296. lia. }
  rewrite Hval. reflexivity.
Qed.

(** ** Initialisation: what is not touched *)

(** [gic_dist_init] changes no line of the host framework at or above its
    registration limit, in particular none at or above
    [CONFIG_HOST_IRQ_COUNT]; it leaves the driver's table, the controller
    count and the active-interrupt reader as they were and traces register
    accesses and diagnostics only. *)
Theorem gic_dist_init_untouched (w : world) (gic : nat) (g : gic_chip_data)
    (irq_start : Z) :
  gic_data w !! gic = Some g ->
  let max_irq := dist_max_irq (hw w) (dist_base g) in
  let irq_limit := Z.min (u32 (irq_offset g + max_irq)) CONFIG_HOST_IRQ_COUNT in
  let r := gic_dist_init gic irq_start w in
  frame w (snd r) /\
  forall j, j < 0 \/ irq_limit <= j ->
    host_irqs (snd r) !! j = host_irqs w !! j.
Proof.
  intros Hg max_irq irq_limit r.
  destruct (returns_run _ _ _ (gic_dist_init_spec gic g irq_start w Hg))
    as ([] & _ & Hf & Hlk).
  fold r in Hf, Hlk. split; [exact Hf |].
  intros j Hj. rewrite Hlk, irq_limit_of_min. fold max_irq irq_limit.
  destruct (Z.leb_spec 0 j), (Z.ltb_spec j irq_limit);
    simpl; try reflexivity; lia.
Qed.

Lemma line_count_min ctr : 32 <= line_count ctr.
Proof.
  unfold line_count.
  assert (Hl : 0 <= Z.land ctr 31 < 32).
  { change 31 with (Z.ones 5). rewrite Z.land_ones by lia.
    apply Z.mod_pos_bound. reflexivity. }
  rewrite u32_small by (change (2 ^ 32) with 4294967296; lia).
  destruct (Z.gtb_spec ((Z.land ctr 31 + 1) * 32) 1020); lia.
Qed.

(** A controller whose [irq_offset] is [2^32 - 32], which is what the
    default first line 0 gives, registers 32 lines less than the distributor
    reports: no host line at or above the line count minus 32 is changed,
    and none at all for a distributor of 32 lines. *)
Theorem gic_dist_init_wrapped_offset (w : world) (gic : nat)
    (g : gic_chip_data) (irq_start : Z) :
  gic_data w !! gic = Some g ->
  irq_offset g = 2 ^ 32 - 32 ->
  let max_irq := dist_max_irq (hw w) (dist_base g) in
  let r := gic_dist_init gic irq_start w in
  (forall j, host_irqs (snd r) !! j <> host_irqs w !! j ->
     0 <= j < max_irq - 32) /\
  (max_irq = 32 -> host_irqs (snd r) = host_irqs w).
Proof.
  intros Hg Hoff max_irq r.
  destruct (returns_run _ _ _ (gic_dist_init_spec gic g irq_start w Hg))
    as ([] & _ & _ & Hlk).
  fold r in Hlk. fold max_irq in Hlk.
  assert (Hmax : 32 <= max_irq <= 1020).
  { subst max_irq. unfold dist_max_irq.
    split; [apply line_count_min | apply line_count_range]. }
  assert (Hlim : irq_limit_of g max_irq <= max_irq - 32).
  { rewrite irq_limit_of_min, Hoff.
    replace (2 ^ 32 - 32 + max_irq) with (max_irq - 32 + 1 * 2 ^ 32) by lia.
    unfold u32. rewrite Z.mod_add by (change (2 ^ 32) with 4294967296; lia).
    rewrite Z.mod_small by (change (2 ^ 32) with 4294967296; lia). lia. }
  assert (Hch : forall j, host_irqs (snd r) !! j <> host_irqs w !! j ->
                          0 <= j < max_irq - 32).
  { intros j Hj. rewrite Hlk in Hj.
    destruct (Z.leb_spec 0 j), (Z.ltb_spec j (irq_limit_of g max_irq));
      simpl in Hj; try congruence. lia. }
  split; [exact Hch |].
  intros H32. apply map_eq. intros j. rewrite Hlk.
  destruct (Z.leb_spec 0 j), (Z.ltb_spec j (irq_limit_of g max_irq));
    simpl; try reflexivity. lia.
Qed.


(** The accesses of [gic_cpu_init], in order: the private peripheral lines
    are disabled and the software-generated lines enabled, the eight
    priority words of lines 0-31 are set, the priority mask is opened and
    the CPU interface is enabled, with bit 9 set as well in split
    end-of-interrupt mode. *)
Theorem gic_cpu_init_trace (w : world) (gic : nat) (g : gic_chip_data) :
  gic_data w !! gic = Some g ->
  let pri := dist_base g +@ GIC_DIST_PRI in
  trace (snd (gic_cpu_init gic w)) =
    trace w ++
    [EvWrite 0xffff0000 (dist_base g +@ GIC_DIST_ENABLE_CLEAR);
     EvWrite 0x0000ffff (dist_base g +@ GIC_DIST_ENABLE_SET);
     EvWrite 0xa0a0a0a0 (pri +@ 0); EvWrite 0xa0a0a0a0 (pri +@ 4);
     EvWrite 0xa0a0a0a0 (pri +@ 8); EvWrite 0xa0a0a0a0 (pri +@ 12);
     EvWrite 0xa0a0a0a0 (pri +@ 16); EvWrite 0xa0a0a0a0 (pri +@ 20);
     EvWrite 0xa0a0a0a0 (pri +@ 24); EvWrite 0xa0a0a0a0 (pri +@ 28);
     EvWrite 0xf0 (cpu_base g +@ GIC_CPU_PRIMASK);
     EvWrite (if eoimode g then 0x201 else 1) (cpu_base g +@ GIC_CPU_CTRL)].
Proof.
  intros Hg pri. subst pri.
  unfold gic_cpu_init, bind, gic_deref. rewrite Hg.
  unfold for_loop. simpl. unfold gic_write, modify, bind. simpl.
  destruct (eoimode g); simpl; rewrite <- !app_assoc; reflexivity.
Qed.

(** ** Further frame properties *)

(** [gic_init_bases] fills the entry of its controller with the mode and
    the bases it is given and with a line count between 32 and 1020 that is
    a multiple of 32 or the cap 1020; the other entries of the table, its
    length, the controller count and the active-interrupt reader are as
    they were. *)
Theorem gic_init_bases_entry (w : world) (gic_nr : Z) (eoimode0 : bool)
    (irq_start cpu_base0 cpu2_base0 dist_base0 : Z) (g0 : gic_chip_data) :
  0 <= gic_nr < GIC_MAX_NR ->
  gic_data w !! Z.to_nat gic_nr = Some g0 ->
  let r := gic_init_bases gic_nr eoimode0 irq_start
             cpu_base0 cpu2_base0 dist_base0 w in
  (exists g, gic_data (snd r) !! Z.to_nat gic_nr = Some g /\
     eoimode g = eoimode0 /\ dist_base g = dist_base0 /\
     cpu_base g = cpu_base0 /\ cpu2_base g = cpu2_base0 /\
     32 <= gic_irqs g <= 1020 /\
     (gic_irqs g mod 32 = 0 \/ gic_irqs g = 1020)) /\
  (forall q, q <> Z.to_nat gic_nr ->
     gic_data (snd r) !! q = gic_data w !! q) /\
  length (gic_data (snd r)) = length (gic_data w) /\
  gic_cnt (snd r) = gic_cnt w /\
  active_cb (snd r) = active_cb w.
Proof.
  intros Hnr Hg0 r.
  destruct (returns_run _ _ _
              (gic_init_bases_spec gic_nr eoimode0 irq_start
                 cpu_base0 cpu2_base0 dist_base0 g0 w Hnr Hg0))
    as (c & _ & _ & Hd & Hc & Ha & _).
  fold r in Hd, Hc, Ha.
  assert (Hlen : (Z.to_nat gic_nr < length (gic_data w))%nat)
    by (eapply lookup_lt_Some; exact Hg0).
  split; [| split; [| split; [| split]]].
  - eexists. split; [rewrite Hd; apply list_lookup_insert_eq; exact Hlen |].
    simpl. repeat split; try reflexivity.
    + apply line_count_min.
    + apply line_count_range.
    + unfold line_count.
      set (k := Z.land (hw_read (hw w) (dist_base0 +@ GIC_DIST_CTR)) 31).
      assert (Hk : 0 <= k < 32).
      { subst k. change 31 with (Z.ones 5). rewrite Z.land_ones by lia.
        apply Z.mod_pos_bound. reflexivity. }
      rewrite u32_small by (change (2 ^ 32) with 4294967296; lia).
      destruct (Z.gtb_spec ((k + 1) * 32) 1020); [right; reflexivity |].
      left. apply Z.mod_mul. lia.
  - intros q Hq. rewrite Hd. apply list_lookup_insert_ne. congruence.
  - rewrite Hd. apply length_insert.
  - exact Hc.
  - exact Ha.
Qed.

Lemma testbit_clear_set_other e b n :
  0 <= b -> Z.testbit e b = true ->
  Z.testbit (Z.lor (Z.ldiff e (2 ^ b)) (2 ^ b)) n = Z.testbit e n.
Proof.
  intros Hb He. rewrite Z.lor_spec, Z.ldiff_spec, Z.pow2_bits_eqb by exact Hb.
  destruct (Z.eqb_spec b n) as [<- | _]; simpl.
  - rewrite He. reflexivity.
  - rewrite andb_true_r, orb_false_r. reflexivity.
Qed.

(** An accepted [gic_set_type] accesses the distributor in this order: it
    reads the line's configuration word and its enable word; if the line is
    enabled it disables it, writes the configuration and enables it again;
    if not, it only writes the configuration.  In both cases every line of
    the distributor ends with the enable state it had. *)
Theorem gic_set_type_sequence (w : world) (irq : vmm_host_irq)
    (gic : gic_chip_data) (type : Z) :
  gic_data w !! chip_data irq = Some gic ->
  hw_dist (hw w) = dist_base gic ->
  12 <= VA_BITS ->
  16 <= gic_irq gic irq < 1024 ->
  type = VMM_IRQ_TYPE_LEVEL_HIGH \/ type = VMM_IRQ_TYPE_EDGE_RISING ->
  let l := gic_irq gic irq in
  let conf := dist_base gic +@ GIC_DIST_CONFIG +@ l / 16 * 4 in
  let eset := dist_base gic +@ GIC_DIST_ENABLE_SET +@ l / 32 * 4 in
  let eclr := dist_base gic +@ GIC_DIST_ENABLE_CLEAR +@ l / 32 * 4 in
  let bit := 2 ^ (l mod 32) in
  let r := gic_set_type irq type w in
  (exists val,
     trace (snd r) =
       trace w ++ EvRead conf :: EvRead eset ::
       (if line_enabled (hw w) l
        then [EvWrite bit eclr; EvWrite val conf; EvWrite bit eset]
        else [EvWrite val conf])) /\
  forall l', line_enabled (hw (snd r)) l' = line_enabled (hw w) l'.
Proof.
  intros Hg Hdist Hva Hline Htype l conf eset eclr bit r. subst r.
  pose proof (Z.div_mod l 32) as Hdm32. pose proof (Z.mod_pos_bound l 32) as Hm32.
  pose proof (Z.div_mod l 16) as Hdm16. pose proof (Z.mod_pos_bound l 16) as Hm16.
  assert (Hk : 0 <= l / 32 < 32) by (subst l; lia).
  assert (Hc : 0 <= l / 16 < 64) by (subst l; lia).
  assert (Hb : 0 <= l mod 32 < 32) by lia.
  unfold gic_set_type, vmm_host_irq_get_chip_data, bind, gic_deref.
  rewrite Hg. fold l.
  destruct (Z.ltb_spec l 16) as [Hlt | _]; [subst l; lia |].
  assert (Hty : negb (type =? VMM_IRQ_TYPE_LEVEL_HIGH)
                && negb (type =? VMM_IRQ_TYPE_EDGE_RISING) = false).
  { destruct Htype as [-> | ->]; rewrite Z.eqb_refl; simpl;
      [reflexivity | apply andb_false_r]. }
  rewrite Hty.
  rewrite (u32_small (l / 32 * 4)), (u32_small (l / 16 * 4))
    by (change (2 ^ 32) with 4294967296; lia).
  fold conf eset eclr.
  assert (Dconf : decode (hw_dist (hw w)) conf = RegPlain)
    by (rewrite Hdist; apply decode_config; assumption).
  assert (Dset : decode (hw_dist (hw w)) eset = RegEnableSet (l / 32))
    by (rewrite Hdist; apply decode_enable_set; assumption).
  assert (Dclr : decode (hw_dist (hw w)) eclr = RegEnableClear (l / 32))
    by (rewrite Hdist; apply decode_enable_clear; assumption).
  unfold gic_read, gic_write, modify, when, ret. simpl.
  assert (Hen : hw_read (hw w) eset = u32 (hw_enable (hw w) (l / 32)))
    by (unfold hw_read; rewrite Dset; reflexivity).
  rewrite Hen, land_bit_zero by exact Hb.
  rewrite negb_involutive, u32_shiftl_1 by exact Hb. fold bit.
  unfold line_enabled at 1 2.
  destruct (Z.testbit (hw_enable (hw w) (l / 32)) (l mod 32)) eqn:Hbit; simpl.
  - split.
    + eexists. rewrite <- !app_assoc. reflexivity.
    + intros l'. unfold line_enabled.
      rewrite hw_enable_write, !hw_dist_write, Dset.
      rewrite hw_enable_write, !hw_dist_write, Dconf.
      rewrite hw_enable_write, Dclr. unfold upd.
      destruct (Z.eqb_spec (l' / 32) (l / 32)) as [-> | _];
        [| reflexivity].
      rewrite !Z.eqb_refl. subst bit.
      apply testbit_clear_set_other; [lia | exact Hbit].
  - split.
    + eexists. rewrite <- !app_assoc. reflexivity.
    + intros l'. unfold line_enabled.
      rewrite hw_enable_write, Dconf. reflexivity.
Qed.

(** [gic_dist_init] switches distribution off before any other access and
    switches it on as its very last access; everything in between is a
    register access or a diagnostic. *)
Theorem gic_dist_init_brackets (w : world) (gic : nat) (g : gic_chip_data)
    (irq_start : Z) :
  gic_data w !! gic = Some g ->
  let ctrl := dist_base g +@ GIC_DIST_CTRL in
  exists mid,
    trace (snd (gic_dist_init gic irq_start w)) =
      trace w ++ EvWrite 0 ctrl :: mid ++ [EvWrite 1 ctrl] /\
    Forall quiet mid.
Proof.
  intros Hg ctrl.
  set (wa := log (EvWrite 0 ctrl) (set_hw (hw_write (hw w) 0 ctrl) w)).
  assert (Hrun : returns (gic_dist_init gic irq_start) w
    (fun _ w' => exists mid,
       trace w' = trace wa ++ mid ++ [EvWrite 1 ctrl] /\ Forall quiet mid)).
  { unfold gic_dist_init.
    apply returns_bind. eapply returns_gic_deref; [exact Hg |].
    apply returns_bind, returns_gic_write. fold ctrl. fold wa.
    apply returns_bind, returns_gic_read.
    set (w1 := log _ wa).
    assert (Hw1 : frame wa w1 /\ host_irqs w1 = host_irqs wa).
    { split; [| reflexivity]. apply frame_log; [exact I | apply frame_refl]. }
    clearbody w1.
    keep_writes wa (host_irqs wa) Hw1 w2 Hw2.
    keep_writes wa (host_irqs wa) Hw2 w3 Hw3.
    keep_writes wa (host_irqs wa) Hw3 w4 Hw4.
    keep_writes wa (host_irqs wa) Hw4 w5 Hw5.
    apply returns_bind. eapply returns_gic_deref.
    { destruct Hw5 as [(Hd & _) _]. rewrite Hd. exact Hg. }
    apply returns_bind. eapply returns_weaken;
      [apply (gic_dist_irq_limit_spec g _ wa (host_irqs wa)); exact Hw5 |].
    intros lim w6 (_ & _ & Hf6 & _).
    apply returns_bind. eapply returns_weaken; [apply register_loop_spec |].
    intros [] w7 (Hf7 & _ & _).
    apply returns_gic_write.
    destruct (frame_trans _ _ _ Hf6 Hf7) as (_ & _ & _ & mid & Ht & Hq).
    exists mid. simpl. rewrite Ht, <- app_assoc. split; [reflexivity | exact Hq]. }
  destruct (returns_run _ _ _ Hrun) as ([] & _ & mid & Ht & Hq).
  exists mid. rewrite Ht. subst wa. simpl. rewrite <- app_assoc.
  split; [reflexivity | exact Hq].
Qed.

End Driver.

(** ** The claims on the concrete platform *)

(** Registration by [gic_dist_init] for controller 0: line 5 is registered
    for it and marked per-CPU. *)
Lemma C1_gic_dist_init_witness :
  exists e,
    host_irqs (snd (gic_dist_init 1024 32 0 0%nat 33 ex_world)) !! 5 = Some e /\
    hirq_chip_data e = Some 0%nat /\ hirq_per_cpu e = true.
Proof.
  destruct (C1_gic_dist_init 1024 32 0 ex_world 0%nat ex_gic0 33 eq_refl)
    as [_ Hreg].
  destruct (Hreg 5) as (e & He & _ & Hd & _ & Hp & _).
  - vm_compute. split; [discriminate | reflexivity].
  - exists e. split; [exact He |]. split; [exact Hd |]. apply Hp. lia.
Defined.

(** The controller created on hardware that reports the largest line
    count. *)
Lemma C2_gic_init_bases_invariant_witness :
  exists g,
    gic_data (snd (gic_init_bases 1024 32 0 0 0 false 33
                     0x1e000000 0x1e010000 0x1e001000 full_world)) !! 0%nat
      = Some g /\
    irq_offset g mod 32 = 0 /\ 0 <= gic_irqs g <= 1020.
Proof.
  destruct (C2_gic_init_bases_invariant 1024 32 0 0 full_world 0 false 33
              0x1e000000 0x1e010000 0x1e001000 gic_zero)
    as (_ & g & Hg & Hoff & Hirqs & _).
  - unfold GIC_MAX_NR. lia.
  - reflexivity.
  - exists g. split; [exact Hg |]. split; [exact Hoff | exact Hirqs].
Defined.

(** On that hardware, with [irq_start] 33, the created controller has
    [irq_offset] 32 and 1020 lines: their sum exceeds the 1024 lines of the
    host framework. *)
Lemma C2_counterexample :
  exists g,
    gic_data (snd (gic_init_bases 1024 32 0 0 0 false 33
                     0x1e000000 0x1e010000 0x1e001000 full_world)) !! 0%nat
      = Some g /\
    ~ (irq_offset g mod 32 = 0 /\ irq_offset g + gic_irqs g <= 1024).
Proof.
  eexists. split; [vm_compute; reflexivity |].
  simpl. intros [_ Hle]. lia.
Qed.

(** Controller 1 acknowledges 33: the cascade handler dispatches line 97. *)
Lemma C3_gic_handle_cascade_irq_witness :
  fst (gic_handle_cascade_irq 32 50 1%nat ex_world) = Some VMM_IRQ_HANDLED /\
  trace (snd (gic_handle_cascade_irq 32 50 1%nat ex_world)) =
    trace ex_world ++ [EvRead 0x1e02000c; EvIrqExec 97].
Proof.
  destruct (C3_gic_handle_cascade_irq 32 ex_world 50 1%nat ex_gic1 33
              eq_refl eq_refl) as (_ & H & _).
  apply H. lia.
Defined.

(** Controller 0 acknowledges 8: the active line is 40. *)
Lemma C4_gic_active_irq_witness :
  fst (gic_active_irq 32 0 ex_world) = Some 40.
Proof.
  destruct (C4_gic_active_irq 32 ex_world ex_gic0 0 8 eq_refl eq_refl)
    as (_ & _ & H & _).
  apply H; [lia | discriminate | reflexivity].
Defined.

(** Line 104 of controller 0 (local number 72) is enabled and stays so. *)
Lemma C5_gic_set_type_keeps_enable_witness :
  fst (gic_set_type 32 (-5) 4 1 (mk_irq 104 0) 1 ex_world) = Some 0 /\
  line_enabled (hw (snd (gic_set_type 32 (-5) 4 1 (mk_irq 104 0) 1 ex_world))) 72
  = line_enabled (hw ex_world) 72.
Proof.
  apply (C5_gic_set_type_keeps_enable 32 (-5) 4 1 ex_world (mk_irq 104 0)
           ex_gic0 1).
  - reflexivity.
  - reflexivity.
  - lia.
  - vm_compute. split; [discriminate | reflexivity].
  - right. reflexivity.
Defined.

(** End of interrupt for line 40 of controller 0: one write of 8. *)
Lemma C6_gic_eoi_irq_witness :
  trace (snd (gic_eoi_irq 32 (mk_irq 40 0) ex_world)) =
    trace ex_world ++ [EvWrite 8 0x1e000010].
Proof.
  destruct (C6_gic_eoi_irq 32 ex_world (mk_irq 40 0) ex_gic0 eq_refl)
    as [_ H].
  exact H.
Defined.

(** Three rejected calls on line 40 of controller 0: a software-generated
    line, an unsupported trigger type, an empty CPU mask. *)
Lemma C7_invalid_arguments_witness :
  gic_set_type 32 (-5) 4 1 (mk_irq 40 0) 4 ex_world = (Some (-5), ex_world) /\
  gic_set_type 32 (-5) 4 1 (mk_irq 40 0) 2 ex_world = (Some (-5), ex_world) /\
  gic_set_affinity 32 (-5) ex_cpumask_first (mk_irq 40 0) 0 false ex_world
  = (Some (-5), ex_world).
Proof.
  split; [| split].
  - destruct (C7_invalid_arguments 32 (-5) 4 1 ex_cpumask_first ex_world
                (mk_irq 40 0) ex_gic0 4 0 false eq_refl) as (H & _ & _).
    apply H. vm_compute. reflexivity.
  - destruct (C7_invalid_arguments 32 (-5) 4 1 ex_cpumask_first ex_world
                (mk_irq 40 0) ex_gic0 2 0 false eq_refl) as (_ & H & _).
    apply H; discriminate.
  - destruct (C7_invalid_arguments 32 (-5) 4 1 ex_cpumask_first ex_world
                (mk_irq 40 0) ex_gic0 4 0 false eq_refl) as (_ & _ & H).
    apply H. vm_compute. discriminate.
Defined.

(** Bootstrap of the cascaded controller without a [parent_irq]: the host
    framework accepts line 1020 and bootstrap completes. *)
Lemma C8_gic_devtree_init_parent_irq_default_witness :
  fst (gic_devtree_init 1024 32 0 (-12) 0 ex_register_rc 0
         (Some ex_child_node) (Some ex_parent_node) true ex_world) = Some 0.
Proof.
  destruct (C8_gic_devtree_init_parent_irq_default 1024 32 0 (-12) 0
              ex_register_rc 0 ex_world ex_child_node ex_parent_node true
              ex_gic1) as (_ & H & _).
  - unfold GIC_MAX_NR. simpl. lia.
  - reflexivity.
  - reflexivity.
  - apply H. reflexivity.
Defined.

(** In that bootstrap the one registration with the host framework is for
    line 1020; none is made for line 1023. *)
Lemma C8_counterexample :
  let tr := trace (snd (gic_devtree_init 1024 32 0 (-12) 0 ex_register_rc 0
                          (Some ex_child_node) (Some ex_parent_node) true
                          ex_world)) in
  last tr = Some (EvIrqRegister 1020 "GIC-CHILD" gic_handle_cascade_irq_fn 1) /\
  ~ In (EvIrqRegister 1023 "GIC-CHILD" gic_handle_cascade_irq_fn 1) tr.
Proof.
  vm_compute. split; [reflexivity |].
  intros H. repeat (destruct H as [H | H]; [discriminate H |]). exact H.
Qed.

(** Raising line 3 on CPUs 1 and 2 from a line of controller 1. *)
Lemma C9_gic_raise_witness :
  trace (snd (gic_raise 32 (mk_irq 3 1) 6 ex_world)) =
    trace ex_world ++ [EvWmb; EvWrite 0x60003 0x1e001f00].
Proof.
  destruct (C9_gic_raise 32 ex_world (mk_irq 3 1) 6 ex_gic0 eq_refl)
    as [_ H].
  exact H.
Defined.

(** [irq_start] 64 gives [irq_offset] 32. *)
Lemma C10_gic_init_bases_irq_offset_witness :
  exists g,
    gic_data (snd (gic_init_bases 1024 32 0 0 0 false 64
                     0x1e000000 0x1e010000 0x1e001000 full_world)) !! 0%nat
      = Some g /\
    irq_offset g = 32.
Proof.
  destruct (C10_gic_init_bases_irq_offset 1024 32 0 0 full_world 0 false 64
              0x1e000000 0x1e010000 0x1e001000 gic_zero)
    as (g & Hg & _ & _ & Hoff).
  - unfold GIC_MAX_NR. lia.
  - reflexivity.
  - vm_compute. split; [discriminate | reflexivity].
  - exists g. split; [exact Hg |]. apply Hoff; [lia | reflexivity].
Defined.

(** Bootstrap of a node without [irq_start] passes 0 to [gic_init_bases]:
    the created controller has [irq_offset] [2^32 - 32]. *)
Example gic_devtree_init_default_irq_start :
  irq_offset <$>
    gic_data (snd (gic_devtree_init 1024 32 0 (-12) 0 ex_register_rc 0
                     (Some ex_child_node) None true ex_world)) !! 1%nat
  = Some (2 ^ 32 - 32).
Proof. vm_compute. reflexivity. Qed.

(** ** The further properties on the concrete platform *)

(** Unmasking line 40 of controller 0 (local number 8) enables it. *)
Lemma gic_unmask_irq_enables_witness :
  line_enabled (hw (snd (gic_unmask_irq 32 (mk_irq 40 0) ex_world))) 8 = true.
Proof.
  destruct (gic_unmask_irq_enables 32 ex_world (mk_irq 40 0) ex_gic0)
    as (_ & _ & H).
  - reflexivity.
  - reflexivity.
  - lia.
  - reflexivity.
  - vm_compute. split; [discriminate | reflexivity].
  - apply (H 8).
Defined.

(** Masking line 104 of controller 0 (local number 72) disables it. *)
Lemma gic_mask_irq_disables_witness :
  line_enabled (hw (snd (gic_mask_irq 32 (mk_irq 104 0) ex_world))) 72 = false.
Proof.
  destruct (gic_mask_irq_disables 32 ex_world (mk_irq 104 0) ex_gic0)
    as (_ & _ & H).
  - reflexivity.
  - reflexivity.
  - lia.
  - reflexivity.
  - vm_compute. split; [discriminate | reflexivity].
  - apply (H 72).
Defined.

(** Edge-rising for line 104 of controller 0 sets bit 17 of its
    configuration word. *)
Lemma gic_set_type_config_bit_witness :
  Z.testbit
    (hw_read 32 (hw (snd (gic_set_type 32 (-5) 4 1 (mk_irq 104 0) 1 ex_world)))
       0x1e001c10) 17 = true.
Proof.
  destruct (gic_set_type_config_bit 32 (-5) 4 1 ex_world (mk_irq 104 0)
              ex_gic0 1) as (_ & H).
  - reflexivity.
  - reflexivity.
  - lia.
  - vm_compute. split; [discriminate | reflexivity].
  - right. reflexivity.
  - apply (H 17). lia.
Defined.

(** Routing line 40 of controller 0 to CPU 1 is accepted. *)
Lemma gic_set_affinity_target_byte_witness :
  fst (gic_set_affinity 32 (-5) ex_cpumask_first (mk_irq 40 0) 2 false ex_world)
  = Some 0.
Proof.
  destruct (gic_set_affinity_target_byte 32 (-5) ex_cpumask_first ex_world
              (mk_irq 40 0) ex_gic0 2 false) as (H & _).
  - reflexivity.
  - vm_compute. reflexivity.
  - exact H.
Defined.

(** After the CPU-interface set-up of controller 0, line 3 is enabled and
    line 20 disabled. *)
Lemma gic_cpu_init_banked_lines_witness :
  line_enabled (hw (snd (gic_cpu_init 32 0%nat ex_world))) 3 = true /\
  line_enabled (hw (snd (gic_cpu_init 32 0%nat ex_world))) 20 = false.
Proof.
  destruct (gic_cpu_init_banked_lines 32 ex_world 0%nat ex_gic0) as (_ & H).
  - reflexivity.
  - reflexivity.
  - lia.
  - reflexivity.
  - reflexivity.
  - split; [apply (H 3) | apply (H 20)].
Defined.

(** After the distributor set-up of controller 0, which reports 64 lines,
    line 40 is disabled. *)
Lemma gic_dist_init_masks_lines_witness :
  line_enabled (hw (snd (gic_dist_init 1024 32 0 0%nat 33 ex_world))) 40
  = false.
Proof.
  destruct (gic_dist_init_masks_lines 1024 32 0 ex_world 0%nat ex_gic0 33)
    as (_ & H & _).
  - reflexivity.
  - reflexivity.
  - lia.
  - apply (H 40). vm_compute. split; [discriminate | reflexivity].
Defined.

(** Controller id 2 is outside the table. *)
Lemma controller_id_out_of_range_witness :
  gic_secondary_init 32 2 ex_world = (None, ex_world).
Proof.
  destruct (controller_id_out_of_range 1024 32 0 0 ex_register_rc ex_world
              2 50 false 33 0 0 0) as (_ & H & _).
  - unfold GIC_MAX_NR. lia.
  - exact H.
Defined.

(** Cascading controller 1 into line 50 is accepted. *)
Lemma gic_cascade_irq_outcomes_witness :
  fst (gic_cascade_irq ex_register_rc 1 50 ex_world) = Some tt.
Proof.
  destruct (gic_cascade_irq_outcomes ex_register_rc ex_world 1 50)
    as (_ & H & _).
  - unfold GIC_MAX_NR. lia.
  - apply H. reflexivity.
Defined.

Lemma gic_init_no_node_witness :
  gic_init 1024 32 0 (-12) 0 true ex_register_rc 0 None ex_world
  = (Some (-12), log EvWarn ex_world).
Proof.
  destruct (gic_init_no_node 1024 32 0 (-12) 0 true ex_register_rc 0 ex_world)
    as (H & _).
  - reflexivity.
  - exact H.
Defined.




(** Controller 0 acknowledges 8 and gets 8 back at end of interrupt. *)
Lemma gic_active_irq_then_eoi_witness :
  trace (snd (bind (gic_active_irq 32 0)
                (fun n => gic_eoi_irq 32 (mk_irq n 0)) ex_world)) =
    [EvRead 0x1e00000c; EvWrite 8 0x1e000010].
Proof.
  destruct (gic_active_irq_then_eoi 32 ex_world ex_gic0 0 8) as (_ & H).
  - reflexivity.
  - reflexivity.
  - lia.
  - exact H.
Defined.

Lemma gic_raise_value_layout_witness :
  trace (snd (gic_raise 32 (mk_irq 3 1) 6 ex_world)) =
    [EvWmb; EvWrite (6 * 2 ^ 16 + 3) 0x1e001f00].
Proof.
  apply (gic_raise_value_layout 32 ex_world (mk_irq 3 1) 6 ex_gic0).
  - reflexivity.
  - vm_compute. split; [discriminate | reflexivity].
  - vm_compute. split; [discriminate | reflexivity].
Defined.

(** Controller 0 registers lines 0-95; line 96 is not touched. *)
Lemma gic_dist_init_untouched_witness :
  host_irqs (snd (gic_dist_init 1024 32 0 0%nat 33 ex_world)) !! 96
  = host_irqs ex_world !! 96.
Proof.
  destruct (gic_dist_init_untouched 1024 32 0 ex_world 0%nat ex_gic0 33)
    as (_ & H).
  - reflexivity.
  - apply (H 96). right. vm_compute. discriminate.
Defined.

(** A 32-line controller whose [irq_offset] wrapped registers nothing. *)
Lemma gic_dist_init_wrapped_offset_witness :
  let w := mk_world (mk_hw 0x1e001000 (fun _ => 0) (fun _ => 0)) 0
             [mk_gic false (2 ^ 32 - 32) 32 0x1e001000 0x1e000000 0x1e010000;
              gic_zero] ∅ None [] in
  host_irqs (snd (gic_dist_init 1024 32 0 0%nat 0 w)) = host_irqs w.
Proof.
  intros w.
  destruct (gic_dist_init_wrapped_offset 1024 32 0 w 0%nat
              (mk_gic false (2 ^ 32 - 32) 32 0x1e001000 0x1e000000 0x1e010000)
              0) as (_ & H).
  - reflexivity.
  - reflexivity.
  - apply H. reflexivity.
Defined.


(** Controller 1 runs in split mode: its CPU interface is enabled with
    0x201. *)
Lemma gic_cpu_init_trace_witness :
  last (trace (snd (gic_cpu_init 32 1%nat ex_world)))
  = Some (EvWrite 0x201 0x1e020000).
Proof.
  rewrite (gic_cpu_init_trace 32 ex_world 1%nat ex_gic1 eq_refl).
  reflexivity.
Defined.

(** The entry created in slot 0 on hardware that reports the largest line
    count has 1020 lines; slot 1 is not touched. *)
Lemma gic_init_bases_entry_witness :
  gic_data (snd (gic_init_bases 1024 32 0 0 0 false 33
                   0x1e000000 0x1e010000 0x1e001000 full_world)) !! 1%nat
  = Some gic_zero.
Proof.
  destruct (gic_init_bases_entry 1024 32 0 0 full_world 0 false 33
              0x1e000000 0x1e010000 0x1e001000 gic_zero)
    as (_ & H & _).
  - unfold GIC_MAX_NR. lia.
  - reflexivity.
  - apply (H 1%nat). discriminate.
Defined.

(** Level-high for the enabled line 104 of controller 0 leaves the disabled
    line 40 disabled. *)
Lemma gic_set_type_sequence_witness :
  line_enabled (hw (snd (gic_set_type 32 (-5) 4 1 (mk_irq 104 0) 4 ex_world))) 40
  = false.
Proof.
  destruct (gic_set_type_sequence 32 (-5) 4 1 ex_world (mk_irq 104 0)
              ex_gic0 4) as (_ & H).
  - reflexivity.
  - reflexivity.
  - lia.
  - vm_compute. split; [discriminate | reflexivity].
  - left. reflexivity.
  - rewrite (H 40). reflexivity.
Defined.

(** The distributor set-up of controller 0 ends by switching distribution
    on. *)
Lemma gic_dist_init_brackets_witness :
  last (trace (snd (gic_dist_init 1024 32 0 0%nat 33 ex_world)))
  = Some (EvWrite 1 0x1e001000).
Proof.
  destruct (gic_dist_init_brackets 1024 32 0 ex_world 0%nat ex_gic0 33 eq_refl)
    as (mid & Ht & _).
  rewrite Ht. simpl. rewrite app_comm_cons, last_snoc. reflexivity.
Defined.
